(** * PrintFlow front end: upload page and shop dashboard

    A shallow embedding of the state-changing logic of the two React
    pages of the repository:

    - the customer upload page ([Module UploadPage], from the page
      component that renders the upload form), and
    - the owner dashboard ([Module ShopDashboard], from
      [src/pages/ShopDashboard.tsx]).

    Event handlers are written in a small handler monad that threads
    the page state, records the observable effects (requests, toasts,
    console output, socket emissions) in order, and propagates thrown
    JavaScript values to the enclosing [try]/[catch]/[finally].

    An [await]ed request is answered by the environment: the network is
    a function from requests to outcomes.  A handler is run as one
    uninterrupted step; the setters used by the handlers below write
    constants or values captured when the handler started, so the
    result does not depend on the render in which they are applied. *)

From Stdlib Require Import ZArith Ascii String List Bool Lia.
From stdpp Require Import base option strings pretty gmap list.

Import ListNotations.
Local Open Scope Z_scope.

(** ** JavaScript values used by the pages *)

Module Js.

(** A [number] that is an integer or [NaN].  The pages only produce
    integers (by [parseInt], by [+ 1] and [- 1], from JSON), all far
    below 2^53, so [Z] is exact. *)
Definition Number := option Z.
Definition NaN : Number := None.

(** Truthiness of a string: every string but the empty one. *)
Definition truthy (s : string) : bool := negb (String.eqb s "").

(** [a || b] on strings. *)
Definition or_str (a b : string) : string := if truthy a then a else b.

(** [a || b] where [a] is a number: [NaN] and [0] are falsy. *)
Definition or_num (a : Number) (b : Z) : Z :=
  match a with
  | Some n => if n =? 0 then b else n
  | None => b
  end.

(** [n.toString()] for an integer. *)
Definition toString (n : Z) : string := pretty n.

(** Template-literal rendering of [string | null]. *)
Definition template (o : option string) : string :=
  match o with
  | Some s => s
  | None => "null"
  end.

(** Truthiness of [string | null]. *)
Definition truthy_opt (o : option string) : bool :=
  match o with
  | Some s => truthy s
  | None => false
  end.

(** *** [parseInt(s)] with no radix argument *)

Definition is_white_space (a : ascii) : bool :=
  match nat_of_ascii a with
  | 9%nat | 10%nat | 11%nat | 12%nat | 13%nat | 32%nat => true
  | _ => false
  end.

Fixpoint skip_white_space (s : string) : string :=
  match s with
  | String a s' => if is_white_space a then skip_white_space s' else s
  | EmptyString => s
  end.

Definition digit_value (radix : Z) (a : ascii) : option Z :=
  let n := Z.of_nat (nat_of_ascii a) in
  let d :=
    if (48 <=? n) && (n <=? 57) then Some (n - 48)
    else if (97 <=? n) && (n <=? 122) then Some (n - 87)
    else if (65 <=? n) && (n <=? 90) then Some (n - 55)
    else None in
  match d with
  | Some v => if v <? radix then Some v else None
  | None => None
  end.

(** The longest prefix of digits of the radix; [None] when it is
    empty. *)
Fixpoint parse_digits (radix : Z) (s : string) (acc : option Z) : option Z :=
  match s with
  | String a s' =>
      match digit_value radix a with
      | Some d =>
          parse_digits radix s'
            (Some (match acc with Some n => n * radix + d | None => d end))
      | None => acc
      end
  | EmptyString => acc
  end.

Definition strip_sign (s : string) : bool * string :=
  match s with
  | String "-" r => (true, r)
  | String "+" r => (false, r)
  | _ => (false, s)
  end.

Definition strip_hex_prefix (s : string) : Z * string :=
  match s with
  | String "0" (String "x" r) => (16, r)
  | String "0" (String "X" r) => (16, r)
  | _ => (10, s)
  end.

Definition parseInt (s : string) : Number :=
  let '(neg, s1) := strip_sign (skip_white_space s) in
  let '(radix, s2) := strip_hex_prefix s1 in
  match parse_digits radix s2 None with
  | Some n => Some (if neg then - n else n)
  | None => NaN
  end.

(** *** [String.prototype.toLowerCase] and [includes]

    Strings are byte strings.  On text made of ASCII characters
    [toLowerCase] folds the letters [A] to [Z] and leaves every other
    character as it is, which is what [toLowerCase] below does; text
    with other characters is outside what it models, and the statements
    that depend on the folding assume [is_ascii]. *)

Fixpoint is_ascii (s : string) : bool :=
  match s with
  | String a s' => (nat_of_ascii a <? 128)%nat && is_ascii s'
  | EmptyString => true
  end.

(** Two characters that are equal, or the same letter in upper and in
    lower case. *)
Definition same_letter (a b : ascii) : bool :=
  let n := nat_of_ascii a in
  let m := nat_of_ascii b in
  (n =? m)%nat
  || (65 <=? n)%nat && (n <=? 90)%nat && (m =? n + 32)%nat
  || (65 <=? m)%nat && (m <=? 90)%nat && (n =? m + 32)%nat.

(** Two texts of the same length that agree character by character up
    to the case of their letters. *)
Fixpoint same_ignoring_case (s t : string) : bool :=
  match s, t with
  | EmptyString, EmptyString => true
  | String a s', String b t' => same_letter a b && same_ignoring_case s' t'
  | _, _ => false
  end.

Definition lower_ascii (a : ascii) : ascii :=
  let n := nat_of_ascii a in
  if (65 <=? n)%nat && (n <=? 90)%nat then ascii_of_nat (n + 32) else a.

Fixpoint toLowerCase (s : string) : string :=
  match s with
  | String a s' => String (lower_ascii a) (toLowerCase s')
  | EmptyString => EmptyString
  end.

(** [s.includes(q)]: [q] occurs in [s] at some position. *)
Fixpoint includes (s q : string) : bool :=
  if String.prefix q s then true
  else
    match s with
    | String _ s' => includes s' q
    | EmptyString => false
    end.

End Js.

(** ** Requests, responses and observable effects *)

(** A value that reaches a [catch] clause: an [Error] object with its
    message, or something that is not an [Error]. *)
Inductive Thrown :=
| ErrorObj (message : string)
| NonError.

(** [error instanceof Error ? error.message : fallback] *)
Definition message_or (e : Thrown) (fallback : string) : string :=
  match e with
  | ErrorObj m => m
  | NonError => fallback
  end.

Inductive Completion (A : Type) :=
| Normal (a : A)
| Throw (e : Thrown).
Arguments Normal {A} a.
Arguments Throw {A} e.

(** A local file handle as the form sees it; the size is absent on the
    placeholder the page builds from a status reply. *)
Record File := { file_name : string; file_size : option Z }.

Inductive FormValue :=
| FormFile (f : File)
| FormText (s : string).

Inductive JsonValue :=
| JString (s : string)
| JBool (b : bool).

(** A request body: none, a [FormData], or [JSON.stringify] of a flat
    object. *)
Inductive Body :=
| NoBody
| FormData (entries : list (string * FormValue))
| JsonObject (fields : list (string * JsonValue)).

Record Request := {
  req_method : string;
  req_url : string;
  req_headers : list (string * string);
  req_body : Body
}.

(** What the page reads of a response; [J] is the shape of the JSON
    body the caller expects.  Reading the body can itself fail. *)
Record Response (J : Type) := {
  ok : bool;
  status : Z;
  text : Completion string;
  json : Completion J
}.
Arguments ok {J} r.
Arguments status {J} r.
Arguments text {J} r.
Arguments json {J} r.

(** The promise returned by [fetch] rejects or resolves. *)
Inductive FetchResult (J : Type) :=
| Rejected (e : Thrown)
| Resolved (r : Response J).
Arguments Rejected {J} e.
Arguments Resolved {J} r.

Inductive Effect :=
| EFetch (r : Request)
| EToastSuccess (msg : string)
| EToastError (msg : string)
| EConsoleError (msg : string)
| EEmit (event : string) (arg : string).

Definition is_toast_error (e : Effect) : bool :=
  match e with EToastError _ => true | _ => false end.

(** The requests of a trace, in order. *)
Definition requests (t : list Effect) : list Request :=
  omap (fun e => match e with EFetch r => Some r | _ => None end) t.

(** ** The handler monad *)

Definition Handler (S A : Type) : Type :=
  S -> Completion A * S * list Effect.

Module Handler.
Section Ops.
Context {S : Type}.

Definition ret {A} (a : A) : Handler S A := fun s => (Normal a, s, []).

Definition bind {A B} (m : Handler S A) (k : A -> Handler S B) : Handler S B :=
  fun s =>
    match m s with
    | (Normal a, s1, t1) =>
        let '(r, s2, t2) := k a s1 in (r, s2, t1 ++ t2)
    | (Throw e, s1, t1) => (Throw e, s1, t1)
    end.

Definition throw {A} (e : Thrown) : Handler S A := fun s => (Throw e, s, []).

Definition get : Handler S S := fun s => (Normal s, s, []).

Definition modify (f : S -> S) : Handler S unit := fun s => (Normal tt, f s, []).

Definition emit (e : Effect) : Handler S unit := fun s => (Normal tt, s, [e]).

(** [try { body } catch (e) { h e }] *)
Definition try_catch {A} (body : Handler S A) (h : Thrown -> Handler S A)
  : Handler S A :=
  fun s =>
    match body s with
    | (Normal a, s1, t1) => (Normal a, s1, t1)
    | (Throw e, s1, t1) =>
        let '(r, s2, t2) := h e s1 in (r, s2, t1 ++ t2)
    end.

(** [try { body } finally { fin }] *)
Definition finally {A} (body : Handler S A) (fin : Handler S unit)
  : Handler S A :=
  fun s =>
    let '(r, s1, t1) := body s in
    match fin s1 with
    | (Normal _, s2, t2) => (r, s2, t1 ++ t2)
    | (Throw e, s2, t2) => (Throw e, s2, t1 ++ t2)
    end.

(** [await p] for a promise that has settled with [c]. *)
Definition await {A} (c : Completion A) : Handler S A :=
  fun s => (c, s, []).

(** [await fetch(req)] against the network [net]. *)
Definition fetch {J} (net : Request -> FetchResult J) (req : Request)
  : Handler S (Response J) :=
  fun s =>
    (match net req with
     | Rejected e => Throw e
     | Resolved r => Normal r
     end, s, [EFetch req]).

End Ops.
End Handler.

Global Instance handler_ret {S} : MRet (Handler S) := @Handler.ret S.
Global Instance handler_bind {S} : MBind (Handler S) :=
  fun A B k m => Handler.bind m k.

Definition toast_success {S} (msg : string) : Handler S unit :=
  Handler.emit (EToastSuccess msg).
Definition toast_error {S} (msg : string) : Handler S unit :=
  Handler.emit (EToastError msg).
(** [toast.info(msg)]: the [toast] of react-hot-toast has no [info],
    so the call throws a [TypeError] and shows nothing. *)
Definition toast_info {S} (msg : string) : Handler S unit :=
  Handler.throw (ErrorObj "toast.info is not a function").
Definition console_error {S} (msg : string) : Handler S unit :=
  Handler.emit (EConsoleError msg).

(** Running a handler: the state and the trace it leaves. *)
Definition final_state {S A} (r : Completion A * S * list Effect) : S := snd (fst r).
Definition trace {S A} (r : Completion A * S * list Effect) : list Effect := snd r.
Definition outcome {S A} (r : Completion A * S * list Effect) : Completion A := fst (fst r).

(** ** Configuration

    [../config] is imported by both pages.  Its endpoints and copy
    bounds are taken as parameters of the development. *)
Record Config := {
  SHOP_DETAILS : string;
  PRINT_JOB_STATUS : string;
  UPLOAD_FILE : string;
  PRINT_JOBS : string;
  MIN_COPIES : Z;
  MAX_COPIES : Z
}.

(** The tabs of the dashboard: the type
    ['pending' | 'completed' | 'expired'] of [activeTab]. *)
Inductive Tab := pending | completed | expired.

Definition tab_string (t : Tab) : string :=
  match t with
  | pending => "pending"
  | completed => "completed"
  | expired => "expired"
  end.

(** Modelled from the spec: [STATIC_VARIABLES.STATUS_TYPES] of
    [../config], which is not among the sources.  The job statuses are
    the enumeration pending, completed, expired, deleted, and the pages
    use [STATUS_TYPES.PENDING] where a value of [Tab] is expected. *)
Module STATUS_TYPES.
Definition PENDING : Tab := pending.
Definition COMPLETED : Tab := completed.
Definition EXPIRED : Tab := expired.
End STATUS_TYPES.

(** ** The upload page *)

Module UploadPage.

(** The component state the handlers read or write, and the browser's
    [localStorage].  Statuses, print type and print side are kept as
    strings: the page stores whatever the server or the socket sends. *)
Record State := {
  isShopClosed : bool;
  files : list File;
  printType : string;
  printSide : string;
  copies : Z;
  isUploading : bool;
  uploadComplete : bool;
  token : string;
  jobStatus : string;
  localStorage : gmap string string
}.

Definition with_isShopClosed (v : bool) (s : State) : State :=
  {| isShopClosed := v; files := files s; printType := printType s;
     printSide := printSide s; copies := copies s;
     isUploading := isUploading s; uploadComplete := uploadComplete s;
     token := token s; jobStatus := jobStatus s;
     localStorage := localStorage s |}.

Definition with_files (v : list File) (s : State) : State :=
  {| isShopClosed := isShopClosed s; files := v; printType := printType s;
     printSide := printSide s; copies := copies s;
     isUploading := isUploading s; uploadComplete := uploadComplete s;
     token := token s; jobStatus := jobStatus s;
     localStorage := localStorage s |}.

Definition with_printType (v : string) (s : State) : State :=
  {| isShopClosed := isShopClosed s; files := files s; printType := v;
     printSide := printSide s; copies := copies s;
     isUploading := isUploading s; uploadComplete := uploadComplete s;
     token := token s; jobStatus := jobStatus s;
     localStorage := localStorage s |}.

Definition with_printSide (v : string) (s : State) : State :=
  {| isShopClosed := isShopClosed s; files := files s;
     printType := printType s; printSide := v; copies := copies s;
     isUploading := isUploading s; uploadComplete := uploadComplete s;
     token := token s; jobStatus := jobStatus s;
     localStorage := localStorage s |}.

Definition with_copies (v : Z) (s : State) : State :=
  {| isShopClosed := isShopClosed s; files := files s;
     printType := printType s; printSide := printSide s; copies := v;
     isUploading := isUploading s; uploadComplete := uploadComplete s;
     token := token s; jobStatus := jobStatus s;
     localStorage := localStorage s |}.

Definition with_isUploading (v : bool) (s : State) : State :=
  {| isShopClosed := isShopClosed s; files := files s;
     printType := printType s; printSide := printSide s;
     copies := copies s; isUploading := v;
     uploadComplete := uploadComplete s; token := token s;
     jobStatus := jobStatus s; localStorage := localStorage s |}.

Definition with_uploadComplete (v : bool) (s : State) : State :=
  {| isShopClosed := isShopClosed s; files := files s;
     printType := printType s; printSide := printSide s;
     copies := copies s; isUploading := isUploading s;
     uploadComplete := v; token := token s; jobStatus := jobStatus s;
     localStorage := localStorage s |}.

Definition with_token (v : string) (s : State) : State :=
  {| isShopClosed := isShopClosed s; files := files s;
     printType := printType s; printSide := printSide s;
     copies := copies s; isUploading := isUploading s;
     uploadComplete := uploadComplete s; token := v;
     jobStatus := jobStatus s; localStorage := localStorage s |}.

Definition with_jobStatus (v : string) (s : State) : State :=
  {| isShopClosed := isShopClosed s; files := files s;
     printType := printType s; printSide := printSide s;
     copies := copies s; isUploading := isUploading s;
     uploadComplete := uploadComplete s; token := token s;
     jobStatus := v; localStorage := localStorage s |}.

Definition with_localStorage (v : gmap string string) (s : State) : State :=
  {| isShopClosed := isShopClosed s; files := files s;
     printType := printType s; printSide := printSide s;
     copies := copies s; isUploading := isUploading s;
     uploadComplete := uploadComplete s; token := token s;
     jobStatus := jobStatus s; localStorage := v |}.

Definition setIsShopClosed v : Handler State unit := Handler.modify (with_isShopClosed v).
Definition setFiles v : Handler State unit := Handler.modify (with_files v).
Definition setPrintType v : Handler State unit := Handler.modify (with_printType v).
Definition setPrintSide v : Handler State unit := Handler.modify (with_printSide v).
Definition setCopies v : Handler State unit := Handler.modify (with_copies v).
Definition setIsUploading v : Handler State unit := Handler.modify (with_isUploading v).
Definition setUploadComplete v : Handler State unit := Handler.modify (with_uploadComplete v).
Definition setToken v : Handler State unit := Handler.modify (with_token v).
Definition setJobStatus v : Handler State unit := Handler.modify (with_jobStatus v).

(** [localStorage.setItem] and [localStorage.removeItem] *)
Definition setItem (k v : string) : Handler State unit :=
  Handler.modify (fun s => with_localStorage (<[k := v]> (localStorage s)) s).
Definition removeItem (k : string) : Handler State unit :=
  Handler.modify (fun s => with_localStorage (delete k (localStorage s)) s).

(** The JSON bodies the page reads. *)
Record StatusReply := {
  reply_status : string;
  reply_fileName : string;
  reply_print_type : string;
  reply_print_side : string;
  reply_copies : Z
}.

Record UploadReply := { token_number : string }.

Section Page.
Variable cfg : Config.
(** [searchParams.get('shop_id')] *)
Variable shopId : option string.

(** The key [`uploadToken_${shopId}`]. *)
Definition storage_key : string := "uploadToken_" +:+ Js.template shopId.

Definition initial (storage : gmap string string) : State :=
  {| isShopClosed := true; files := []; printType := "bw";
     printSide := "single"; copies := MIN_COPIES cfg;
     isUploading := false; uploadComplete := false; token := "";
     jobStatus := tab_string STATUS_TYPES.PENDING;
     localStorage := storage |}.

(** *** Recovery of a stored token on page load *)

Definition status_request (storedToken : string) : Request :=
  {| req_method := "GET";
     req_url := PRINT_JOB_STATUS cfg +:+ "/" +:+ storedToken;
     req_headers := [];
     req_body := NoBody |}.

Definition checkPreviousUpload (net : Request -> FetchResult StatusReply)
  : Handler State unit :=
  s ← Handler.get;
  match localStorage s !! storage_key with
  | Some storedToken =>
      if Js.truthy storedToken && Js.truthy_opt shopId then
        Handler.try_catch
          (response ← Handler.fetch net (status_request storedToken);
           (if negb (ok response)
            then Handler.throw (ErrorObj "Failed to fetch job status")
            else mret tt);;
           job ← Handler.await (json response);
           setToken storedToken;;
           setJobStatus (reply_status job);;
           setUploadComplete true;;
           setFiles [ {| file_name := reply_fileName job; file_size := None |} ];;
           setPrintType (reply_print_type job);;
           setPrintSide (reply_print_side job);;
           setCopies (reply_copies job))
          (fun _ => removeItem storage_key)
      else mret tt
  | None => mret tt
  end.

(** *** Submission *)

Definition form_data (s : State) : list (string * FormValue) :=
  map (fun f => ("files", FormFile f)) (files s)
  ++ [ ("print_type", FormText (printType s));
       ("print_side", FormText (printSide s));
       ("copies", FormText (Js.toString (copies s))) ].

Definition upload_request (s : State) : Request :=
  {| req_method := "POST";
     req_url := UPLOAD_FILE cfg +:+ "/" +:+ Js.template shopId;
     req_headers := [];
     req_body := FormData (form_data s) |}.

Definition uploaded_message (n : nat) : string :=
  pretty n +:+ " " +:+ (if (n =? 1)%nat then "file" else "files")
  +:+ " uploaded successfully!".

(** [e.preventDefault()] acts on the browser event only and is left
    out; [s] holds the values the closure captured. *)
Definition handleSubmit (net : Request -> FetchResult UploadReply)
  : Handler State unit :=
  s ← Handler.get;
  if (length (files s) =? 0)%nat then
    toast_error "Please select at least one file to upload"
  else
    setIsUploading true;;
    Handler.finally
      (Handler.try_catch
         (response ← Handler.fetch net (upload_request s);
          (if negb (ok response)
           then
             errorText ← Handler.await (text response);
             Handler.throw
               (ErrorObj ("Upload failed: " +:+ Js.toString (status response)
                          +:+ " " +:+ errorText))
           else mret tt);;
          data ← Handler.await (json response);
          let newToken := token_number data in
          setToken newToken;;
          setItem storage_key newToken;;
          setUploadComplete true;;
          setJobStatus (tab_string STATUS_TYPES.PENDING);;
          toast_success (uploaded_message (length (files s))))
         (fun error =>
            toast_error (message_or error "Upload failed. Please try again.")))
      (setIsUploading false).

(** *** The form controls *)

(** [onDrop] *)
Definition onDrop (acceptedFiles : list File) : Handler State unit :=
  if (0 <? length acceptedFiles)%nat then setFiles acceptedFiles else mret tt.

(** [files.filter((_, i) => i !== index)] *)
Fixpoint remove_at {A} (index : nat) (l : list A) : list A :=
  match l, index with
  | [], _ => []
  | _ :: l', O => l'
  | x :: l', S i => x :: remove_at i l'
  end.

Definition removeFile (index : nat) : Handler State unit :=
  s ← Handler.get; setFiles (remove_at index (files s)).

(** The [-] button. *)
Definition decrementCopies : Handler State unit :=
  s ← Handler.get;
  if MIN_COPIES cfg <? copies s then setCopies (copies s - 1) else mret tt.

(** The [onChange] of the copies input:
    [setCopies(parseInt(e.target.value) || MIN_COPIES)]. *)
Definition changeCopies (value : string) : Handler State unit :=
  setCopies (Js.or_num (Js.parseInt value) (MIN_COPIES cfg)).

(** The [+] button. *)
Definition incrementCopies : Handler State unit :=
  s ← Handler.get;
  if copies s <? MAX_COPIES cfg then setCopies (copies s + 1) else mret tt.

(** *** Socket events *)

Inductive SocketEvent :=
| connect
| shopStatusUpdate (isAcceptingUploads : bool)
| jobStatusUpdate (id token status : string)
| batchStatusUpdate (token status : string) (count : Z)
| connect_error.

Definition on (e : SocketEvent) : Handler State unit :=
  match e with
  | connect =>
      match shopId with
      | Some sid =>
          if Js.truthy sid then Handler.emit (EEmit "joinShopRoom" sid)
          else mret tt
      | None => mret tt
      end
  | shopStatusUpdate isAcceptingUploads =>
      setIsShopClosed (negb isAcceptingUploads)
  | jobStatusUpdate _ updToken updStatus =>
      s ← Handler.get;
      if String.eqb updToken (token s) then
        setJobStatus updStatus;;
        if String.eqb updStatus "completed" then
          toast_success ("Job #" +:+ token s +:+ " is completed!")
        else if String.eqb updStatus "deleted" then
          toast_error ("Job #" +:+ token s +:+ " was declined/deleted.")
        else mret tt
      else mret tt
  | batchStatusUpdate updToken updStatus _ =>
      s ← Handler.get;
      if String.eqb updToken (token s) then
        setJobStatus updStatus;;
        if String.eqb updStatus "completed" then
          toast_success ("All jobs for #" +:+ token s +:+ " completed!")
        else if String.eqb updStatus "deleted" then
          toast_error ("All jobs for #" +:+ token s +:+ " were declined/deleted.")
        else mret tt
      else mret tt
  | connect_error => toast_error "WebSocket connection error"
  end.

End Page.

End UploadPage.

(** ** The shop dashboard *)

Module ShopDashboard.

Record PrintJobFile := {
  fileName : string;
  filePath : string;
  fileSize : Z
}.

(** [interface PrintJob]; [uploadTime] is the instant in milliseconds. *)
Record PrintJob := {
  id : string;
  token : string;
  printType : string;
  printSide : string;
  copies : Z;
  status : string;
  uploadTime : Z;
  files : list PrintJobFile
}.

(** [{ ...job, status: v }] *)
Definition with_status (v : string) (job : PrintJob) : PrintJob :=
  {| id := id job; token := token job; printType := printType job;
     printSide := printSide job; copies := copies job; status := v;
     uploadTime := uploadTime job; files := files job |}.

Record State := {
  printJobs : list PrintJob;
  isLoading : bool;
  activeTab : Tab;
  showQRModal : bool;
  searchQuery : string;
  isAcceptingUploads : bool
}.

Definition with_printJobs (v : list PrintJob) (s : State) : State :=
  {| printJobs := v; isLoading := isLoading s; activeTab := activeTab s;
     showQRModal := showQRModal s; searchQuery := searchQuery s;
     isAcceptingUploads := isAcceptingUploads s |}.

Definition with_activeTab (v : Tab) (s : State) : State :=
  {| printJobs := printJobs s; isLoading := isLoading s; activeTab := v;
     showQRModal := showQRModal s; searchQuery := searchQuery s;
     isAcceptingUploads := isAcceptingUploads s |}.

Definition with_searchQuery (v : string) (s : State) : State :=
  {| printJobs := printJobs s; isLoading := isLoading s;
     activeTab := activeTab s; showQRModal := showQRModal s;
     searchQuery := v; isAcceptingUploads := isAcceptingUploads s |}.

Definition with_isAcceptingUploads (v : bool) (s : State) : State :=
  {| printJobs := printJobs s; isLoading := isLoading s;
     activeTab := activeTab s; showQRModal := showQRModal s;
     searchQuery := searchQuery s; isAcceptingUploads := v |}.

(** [setPrintJobs(prevJobs => f prevJobs)] *)
Definition setPrintJobs (f : list PrintJob -> list PrintJob) : Handler State unit :=
  Handler.modify (fun s => with_printJobs (f (printJobs s)) s).
Definition setActiveTab v : Handler State unit := Handler.modify (with_activeTab v).
Definition setSearchQuery v : Handler State unit := Handler.modify (with_searchQuery v).
Definition setIsAcceptingUploads v : Handler State unit :=
  Handler.modify (with_isAcceptingUploads v).

Definition initial : State :=
  {| printJobs := []; isLoading := true; activeTab := STATUS_TYPES.PENDING;
     showQRModal := false; searchQuery := ""; isAcceptingUploads := false |}.

(** The payload of [newBatchPrintJob] is untyped; the handler reads
    each field under its current name and, when that is falsy, under
    the legacy name.  Fields are modelled at the types [PrintJob] gives
    them.  For a field read first ([id], [token], [printType],
    [printSide], [status]) absent and empty are both falsy and both are
    the empty string here; [copies] and [uploadTime] are numbers, where
    absent is [NaN] and [NaN] and [0] are falsy; [files] is [None] when
    it is not an array.  A payload that carries a value under neither
    name leaves [undefined] in the job, which the types of [PrintJob]
    exclude: here the field is then empty, and the statements that
    depend on such a field assume it is not. *)
Record NewJobFile := {
  new_fileName : string;
  new_filePath : string;
  new_file_path : string;
  new_fileSize : Js.Number
}.

Record NewJob := {
  new_id : string;
  new__id : string;
  new_token : string;
  new_token_number : string;
  new_printType : string;
  new_print_type : string;
  new_printSide : string;
  new_print_side : string;
  new_copies : Js.Number;
  new_status : string;
  new_uploadTime : Js.Number;
  new_files : option (list NewJobFile)
}.

Definition formatFile (file : NewJobFile) : PrintJobFile :=
  {| fileName := new_fileName file;
     filePath := Js.or_str (new_filePath file) (new_file_path file);
     fileSize := Js.or_num (new_fileSize file) 0 |}.

(** [formattedJob]; [now] is the value of [new Date()]. *)
Definition formatJob (now : Z) (newJob : NewJob) : PrintJob :=
  {| id := Js.or_str (new_id newJob) (new__id newJob);
     token := Js.or_str (new_token newJob) (new_token_number newJob);
     printType := Js.or_str (new_printType newJob) (new_print_type newJob);
     printSide := Js.or_str (new_printSide newJob) (new_print_side newJob);
     copies := Js.or_num (new_copies newJob) 1;
     status := Js.or_str (new_status newJob) "pending";
     uploadTime := Js.or_num (new_uploadTime newJob) now;
     files := match new_files newJob with
              | Some fs => map formatFile fs
              | None => []
              end |}.

(** The three roster updates passed to [setPrintJobs]. *)
Definition insert_job (formattedJob : PrintJob) (prevJobs : list PrintJob)
  : list PrintJob :=
  if existsb (fun job => String.eqb (id job) (id formattedJob)) prevJobs
  then prevJobs
  else formattedJob :: prevJobs.

Definition update_by_id (updId updStatus : string) (prevJobs : list PrintJob)
  : list PrintJob :=
  map (fun job => if String.eqb (id job) updId then with_status updStatus job else job)
      prevJobs.

Definition update_by_token (updToken updStatus : string) (prevJobs : list PrintJob)
  : list PrintJob :=
  map (fun job =>
         if String.eqb (token job) updToken then with_status updStatus job else job)
      prevJobs.

Inductive SocketEvent :=
| connect
| newBatchPrintJob (now : Z) (newJob : NewJob)
| jobStatusUpdate (id status : string)
| batchStatusUpdate (token status : string)
| disconnect.

Section Page.
Variable cfg : Config.
(** [getToken()] and [getShopId()] of [../utils/auth]. *)
Variable authToken : option string.
Variable authShopId : option string.

Definition on (e : SocketEvent) : Handler State unit :=
  match e with
  | connect => Handler.emit (EEmit "joinShopRoom" (Js.template authShopId))
  | newBatchPrintJob now newJob =>
      let formattedJob := formatJob now newJob in
      setPrintJobs (insert_job formattedJob);;
      toast_success ("New print job received with "
                     +:+ pretty (length (files formattedJob)) +:+ " files!")
  | jobStatusUpdate updId updStatus =>
      setPrintJobs (update_by_id updId updStatus);;
      if String.eqb updStatus "completed" then
        toast_success "Job marked as completed"
      else if String.eqb updStatus "deleted" then
        toast_success "Job deleted successfully"
      else toast_info ("Job status updated to " +:+ updStatus)
  | batchStatusUpdate updToken updStatus =>
      setPrintJobs (update_by_token updToken updStatus);;
      if String.eqb updStatus "completed" then
        toast_success "Jobs marked as completed"
      else if String.eqb updStatus "deleted" then
        toast_success "Jobs deleted successfully"
      else toast_info ("Jobs status updated to " +:+ updStatus)
  | disconnect => mret tt
  end.

Definition bearer : string * string :=
  ("Authorization", "Bearer " +:+ Js.template authToken).

Definition mark_completed_request (jobId : string) : Request :=
  {| req_method := "PUT";
     req_url := PRINT_JOBS cfg +:+ "/" +:+ jobId;
     req_headers := [("Content-Type", "application/json"); bearer];
     req_body := JsonObject [("status", JString "completed")] |}.

Definition handleMarkAsCompleted (net : Request -> FetchResult unit)
    (jobId : string) : Handler State unit :=
  Handler.try_catch
    (response ← Handler.fetch net (mark_completed_request jobId);
     (if negb (ok response)
      then Handler.throw (ErrorObj "Failed to update job status")
      else mret tt);;
     toast_success "Job marked as completed")
    (fun error =>
       console_error "Error marking job as completed:";;
       toast_error "Failed to mark job as completed").

Definition delete_request (jobId : string) : Request :=
  {| req_method := "DELETE";
     req_url := PRINT_JOBS cfg +:+ "/" +:+ jobId;
     req_headers := [bearer];
     req_body := NoBody |}.

(** [confirmed] is the answer to the [confirm] dialog. *)
Definition handleDeleteJob (net : Request -> FetchResult unit)
    (confirmed : bool) (jobId : string) : Handler State unit :=
  if negb confirmed then mret tt
  else
    Handler.try_catch
      (response ← Handler.fetch net (delete_request jobId);
       (if negb (ok response)
        then Handler.throw (ErrorObj "Failed to delete job")
        else mret tt);;
       toast_success "Job deleted successfully")
      (fun error =>
         console_error "Error deleting job:";;
         toast_error "Failed to delete job").

Definition toggle_request (s : State) : Request :=
  {| req_method := "PUT";
     req_url := SHOP_DETAILS cfg +:+ "/" +:+ Js.template authShopId
                +:+ "/toggle-uploads";
     req_headers := [bearer; ("Content-Type", "application/json")];
     req_body :=
       JsonObject [("isAcceptingUploads", JBool (negb (isAcceptingUploads s)))] |}.

Definition handleToggleUploads (net : Request -> FetchResult unit)
  : Handler State unit :=
  s ← Handler.get;
  Handler.try_catch
    (response ← Handler.fetch net (toggle_request s);
     (if negb (ok response)
      then Handler.throw (ErrorObj "Failed to update shop status")
      else mret tt);;
     setIsAcceptingUploads (negb (isAcceptingUploads s));;
     toast_success ("Upload form "
                    +:+ (if negb (isAcceptingUploads s) then "enabled" else "disabled")))
    (fun _ => toast_error "Failed to update shop status").

End Page.

(** *** What the job list shows *)

Definition filteredJobs (s : State) : list PrintJob :=
  List.filter (fun job => String.eqb (status job) (tab_string (activeTab s)))
              (printJobs s).

Definition filteredAndSearchedJobs (s : State) : list PrintJob :=
  List.filter
    (fun job =>
       Js.includes (Js.toLowerCase (token job)) (Js.toLowerCase (searchQuery s)))
    (filteredJobs s).

End ShopDashboard.

(** ** Outcomes of a request, as the handlers distinguish them *)

(** The request resolved with a 2xx response. *)
Definition succeeded {J} (o : FetchResult J) : bool :=
  match o with
  | Resolved r => ok r
  | Rejected _ => false
  end.

(** The request was rejected (network failure) or resolved with a
    response that is not 2xx. *)
Definition failed {J} (o : FetchResult J) : Prop :=
  match o with
  | Rejected _ => True
  | Resolved r => ok r = false
  end.

(** The request did not deliver a JSON body: it was rejected, the
    response was not 2xx, or the body could not be read. *)
Definition no_reply {J} (o : FetchResult J) : Prop :=
  match o with
  | Rejected _ => True
  | Resolved r => ok r = false \/ exists e, json r = Throw e
  end.

(** The token and status carried by a status event of the upload page. *)
Definition status_update (e : UploadPage.SocketEvent) : option (string * string) :=
  match e with
  | UploadPage.jobStatusUpdate _ tok st => Some (tok, st)
  | UploadPage.batchStatusUpdate tok st _ => Some (tok, st)
  | _ => None
  end.

(** ** Sample data *)

Module Samples.

Definition cfg : Config :=
  {| SHOP_DETAILS := "/api/shops";
     PRINT_JOB_STATUS := "/api/print-jobs/status";
     UPLOAD_FILE := "/api/upload";
     PRINT_JOBS := "/api/print-jobs";
     MIN_COPIES := 1;
     MAX_COPIES := 100 |}.

Definition shop : string := "shop1".

Definition report : File := {| file_name := "report.pdf"; file_size := Some 2048 |}.

(** A form with one file selected and the defaults otherwise. *)
Definition selected : UploadPage.State :=
  UploadPage.with_files [report] (UploadPage.initial cfg ∅).

(** The same form after [-5] was typed into the copies input. *)
Definition typed_minus_five : UploadPage.State :=
  final_state (UploadPage.changeCopies cfg "-5" selected).

(** A page that shows the token [T42]. *)
Definition showing : UploadPage.State :=
  UploadPage.with_token "T42"
    (UploadPage.with_uploadComplete true
       (UploadPage.with_localStorage {[ "uploadToken_shop1" := "T42" ]} selected)).

(** A returning customer: the token is in storage, the page is fresh. *)
Definition returning : UploadPage.State :=
  UploadPage.initial cfg {[ "uploadToken_shop1" := "T42" ]}.

Definition upload_accepted : Request -> FetchResult UploadPage.UploadReply :=
  fun _ => Resolved {| ok := true; status := 201;
                       text := Normal "";
                       json := Normal {| UploadPage.token_number := "T42" |} |}.

Definition offline {J} : Request -> FetchResult J :=
  fun _ => Rejected (ErrorObj "Failed to fetch").

Definition accepted : Request -> FetchResult unit :=
  fun _ => Resolved {| ok := true; status := 200; text := Normal "";
                       json := Normal tt |}.

Definition status_found : Request -> FetchResult UploadPage.StatusReply :=
  fun _ => Resolved
    {| ok := true; status := 200; text := Normal "";
       json := Normal {| UploadPage.reply_status := "completed";
                         UploadPage.reply_fileName := "report.pdf";
                         UploadPage.reply_print_type := "color";
                         UploadPage.reply_print_side := "double";
                         UploadPage.reply_copies := 3 |} |}.

Definition job (i tok st : string) : ShopDashboard.PrintJob :=
  {| ShopDashboard.id := i; ShopDashboard.token := tok;
     ShopDashboard.printType := "bw"; ShopDashboard.printSide := "single";
     ShopDashboard.copies := 1; ShopDashboard.status := st;
     ShopDashboard.uploadTime := 0; ShopDashboard.files := [] |}.

(** Two pending jobs of one batch and one of another. *)
Definition roster : list ShopDashboard.PrintJob :=
  [job "j1" "T42" "pending"; job "j2" "T42" "pending"; job "j3" "T7" "pending"].

Definition dashboard : ShopDashboard.State :=
  ShopDashboard.with_printJobs roster ShopDashboard.initial.

(** The owner has typed [T7] into the search box. *)
Definition searching : ShopDashboard.State :=
  ShopDashboard.with_searchQuery "T7" dashboard.

Definition announced (i tok : string) : ShopDashboard.NewJob :=
  {| ShopDashboard.new_id := ""; ShopDashboard.new__id := i;
     ShopDashboard.new_token := ""; ShopDashboard.new_token_number := tok;
     ShopDashboard.new_printType := ""; ShopDashboard.new_print_type := "bw";
     ShopDashboard.new_printSide := ""; ShopDashboard.new_print_side := "single";
     ShopDashboard.new_copies := Some 2; ShopDashboard.new_status := "";
     ShopDashboard.new_uploadTime := None; ShopDashboard.new_files := Some [] |}.

End Samples.

(** ** The rest of the upload page *)

Module UploadView.
Import UploadPage.

(** What the component returns: the notice for a missing shop id, the
    notice for a closed shop, the card with the token, or the form.
    [isTransitioning] is never written and stays [false]. *)
Inductive View := InvalidQRCode | ShopClosed | UploadSuccessful | UploadForm.

Definition view (shopId : option string) (s : State) : View :=
  if negb (Js.truthy_opt shopId) then InvalidQRCode
  else if isShopClosed s then ShopClosed
  else if uploadComplete s then UploadSuccessful
  else UploadForm.

(** [disabled] of the submit button. *)
Definition submit_disabled (s : State) : bool :=
  (length (files s) =? 0)%nat || isUploading s.

(** The copies field is [<input type=number min max>] and the form has
    no [noValidate]: the browser checks the field against its bounds
    before it fires the submit event. *)
Definition copies_input_valid (cfg : Config) (s : State) : bool :=
  (MIN_COPIES cfg <=? copies s) && (copies s <=? MAX_COPIES cfg).

(** An attempt to submit the form, by a click on the submit button or
    by Enter in a field: nothing happens while the button is disabled
    or a field is invalid, otherwise [onSubmit] runs. *)
Definition submitForm (cfg : Config) (shopId : option string)
    (net : Request -> FetchResult UploadReply) : Handler State unit :=
  s ← Handler.get;
  if submit_disabled s then mret tt
  else if copies_input_valid cfg s then handleSubmit cfg shopId net
  else mret tt.

(** The files of a form body, in order. *)
Definition form_files (b : Body) : list File :=
  match b with
  | FormData entries =>
      omap (fun e : string * FormValue =>
              match e with
              | (_, FormFile f) => Some f
              | _ => None
              end) entries
  | _ => []
  end.

Section Reset.
Variable cfg : Config.
Variable shopId : option string.

(** The callback handed to [setTimeout] by the button. *)
Definition transitionOut : Handler State unit :=
  setFiles [];;
  setPrintType "bw";;
  setPrintSide "single";;
  setCopies (MIN_COPIES cfg);;
  setIsUploading false;;
  setUploadComplete false;;
  setToken "";;
  removeItem (storage_key shopId).

(** [onClick] of [Upload Another File]; the result tells whether
    [setTimeout(transitionOut, 300)] was called. *)
Definition uploadAnotherClick : Handler State bool :=
  s ← Handler.get;
  if String.eqb (jobStatus s) (tab_string STATUS_TYPES.COMPLETED)
     || String.eqb (jobStatus s) "deleted"
  then setUploadComplete false;; mret true
  else
    toast_info ("Your job " +:+ "#" +:+ token s +:+ "is still pending");;
    mret false.

(** The click followed by the timer, when it was armed. *)
Definition uploadAnother : Handler State unit :=
  armed ← uploadAnotherClick;
  if armed : bool then transitionOut else mret tt.

End Reset.

(** *** Shop details

    The page also keeps the name and the two prices of the shop.
    Prices are JSON numbers that need not be integers; their type is a
    parameter. *)
Section ShopDetails.
Variable Price : Type.
Variable zero : Price.
Variable cfg : Config.
Variable shopId : option string.

Record Page := {
  shopName : string;
  bwCostPerPage : Price;
  colorCostPerPage : Price;
  form : State
}.

Record ShopReply := {
  shop_name : string;
  shop_bw_cost_per_page : Price;
  shop_color_cost_per_page : Price;
  shop_isAcceptingUploads : bool
}.

Definition initial_page (storage : gmap string string) : Page :=
  {| shopName := ""; bwCostPerPage := zero; colorCostPerPage := zero;
     form := initial cfg storage |}.

Definition setShopName (v : string) : Handler Page unit :=
  Handler.modify (fun p =>
    {| shopName := v; bwCostPerPage := bwCostPerPage p;
       colorCostPerPage := colorCostPerPage p; form := form p |}).

Definition setBwCostPerPage (v : Price) : Handler Page unit :=
  Handler.modify (fun p =>
    {| shopName := shopName p; bwCostPerPage := v;
       colorCostPerPage := colorCostPerPage p; form := form p |}).

Definition setColorCostPerPage (v : Price) : Handler Page unit :=
  Handler.modify (fun p =>
    {| shopName := shopName p; bwCostPerPage := bwCostPerPage p;
       colorCostPerPage := v; form := form p |}).

Definition setIsShopClosed' (v : bool) : Handler Page unit :=
  Handler.modify (fun p =>
    {| shopName := shopName p; bwCostPerPage := bwCostPerPage p;
       colorCostPerPage := colorCostPerPage p;
       form := with_isShopClosed v (form p) |}).

Definition shop_details_request (sid : string) : Request :=
  {| req_method := "GET";
     req_url := SHOP_DETAILS cfg +:+ "/" +:+ sid;
     req_headers := [];
     req_body := NoBody |}.

Definition fetchShopDetails (net : Request -> FetchResult ShopReply)
  : Handler Page unit :=
  if Js.truthy_opt shopId then
    Handler.try_catch
      (response ← Handler.fetch net (shop_details_request (Js.template shopId));
       (if negb (ok response)
        then Handler.throw (ErrorObj "Failed to fetch shop details")
        else mret tt);;
       shop ← Handler.await (json response);
       setShopName (shop_name shop);;
       setBwCostPerPage (shop_bw_cost_per_page shop);;
       setColorCostPerPage (shop_color_cost_per_page shop);;
       setIsShopClosed' (negb (shop_isAcceptingUploads shop)))
      (fun _ => toast_error "Failed to fetch shop details")
  else mret tt.

End ShopDetails.

Arguments shopName {Price} _.
Arguments bwCostPerPage {Price} _.
Arguments colorCostPerPage {Price} _.
Arguments form {Price} _.
Arguments shop_name {Price} _.
Arguments shop_bw_cost_per_page {Price} _.
Arguments shop_color_cost_per_page {Price} _.
Arguments shop_isAcceptingUploads {Price} _.

(** [files.filter((_, i) => i !== index)] read literally: the files
    paired with their positions, those at [index] dropped. *)
Definition filter_by_position {A} (index : nat) (l : list A) : list A :=
  map snd
    (List.filter (fun p : nat * A => negb (fst p =? index)%nat)
                 (combine (seq 0 (length l)) l)).

(** A press on one of the two copies buttons. *)
Inductive Press := Minus | Plus.

Definition press (cfg : Config) (b : Press) : Handler State unit :=
  match b with
  | Minus => decrementCopies cfg
  | Plus => incrementCopies cfg
  end.

(** The state after a series of presses. *)
Definition presses (cfg : Config) (bs : list Press) (s : State) : State :=
  fold_left (fun st b => final_state (press cfg b st)) bs s.

End UploadView.

(** ** Text functions of the dashboard *)

Module JsText.

Definition double_quote : ascii := ascii_of_nat 34.
Definition backslash : ascii := ascii_of_nat 92.

(** The characters [.] does not match.  Strings are byte strings, and
    a header value or a path holds no U+2028 or U+2029. *)
Definition is_line_terminator (a : ascii) : bool :=
  match nat_of_ascii a with
  | 10%nat | 13%nat => true
  | _ => false
  end.

Fixpoint drop (n : nat) (s : string) : string :=
  match n, s with
  | S n', String _ s' => drop n' s'
  | _, _ => s
  end.

(** What a greedy run of [.] followed by a double quote captures at
    the start of [s]: the characters up to the last double quote that
    comes before any line terminator. *)
Fixpoint capture_to_last_quote (s : string) : option string :=
  match s with
  | EmptyString => None
  | String c s' =>
      if is_line_terminator c then None
      else
        match capture_to_last_quote s' with
        | Some p => Some (String c p)
        | None => if Ascii.eqb c double_quote then Some EmptyString else None
        end
  end.

(** The text [filename=] followed by a double quote. *)
Definition filename_marker : string := "filename=" +:+ String double_quote "".

(** Group 1 of the match of the pattern [filename=], double quote,
    one or more [.] (greedy, captured), double quote: taken at the
    first position where the pattern matches, [None] when there is
    none. *)
Fixpoint match_filename (s : string) : option string :=
  let here :=
    if String.prefix filename_marker s then
      match capture_to_last_quote (drop (String.length filename_marker) s) with
      | Some p => if Js.truthy p then Some p else None
      | None => None
      end
    else None in
  match here with
  | Some p => Some p
  | None =>
      match s with
      | String _ s' => match_filename s'
      | EmptyString => None
      end
  end.

(** *** [encodeURIComponent] on the UTF-8 bytes of a string *)

Definition is_alphanumeric (a : ascii) : bool :=
  let n := nat_of_ascii a in
  ((48 <=? n) && (n <=? 57) || (65 <=? n) && (n <=? 90)
   || (97 <=? n) && (n <=? 122))%nat.

Definition is_unreserved (a : ascii) : bool :=
  is_alphanumeric a
  || existsb (Ascii.eqb a) ["-"; "_"; "."; "!"; "~"; "*"; "'"; "("; ")"]%char.

Definition hex_digit (n : nat) : ascii :=
  if (n <? 10)%nat then ascii_of_nat (48 + n) else ascii_of_nat (55 + n).

Definition percent_encode (a : ascii) : string :=
  let n := nat_of_ascii a in
  String "%" (String (hex_digit (n / 16)) (String (hex_digit (n mod 16)) "")).

Fixpoint encodeURIComponent (s : string) : string :=
  match s with
  | EmptyString => EmptyString
  | String a s' =>
      (if is_unreserved a then String a "" else percent_encode a)
      +:+ encodeURIComponent s'
  end.

(** *** The pieces of [formatFileName] *)

Definition is_separator (a : ascii) : bool :=
  Ascii.eqb a "/" || Ascii.eqb a backslash.

(** [s.split(/[/\]/)] *)
Fixpoint split_path (s : string) : list string :=
  match s with
  | EmptyString => [EmptyString]
  | String c s' =>
      if is_separator c then EmptyString :: split_path s'
      else
        match split_path s' with
        | seg :: rest => String c seg :: rest
        | [] => [String c EmptyString]
        end
  end.

(** [l.pop()] as a value: the last element, if any. *)
Definition pop (l : list string) : option string := List.last (map Some l) None.

Definition is_digit (a : ascii) : bool :=
  let n := nat_of_ascii a in ((48 <=? n) && (n <=? 57))%nat.

Fixpoint skip_digits (s : string) : string :=
  match s with
  | String c s' => if is_digit c then skip_digits s' else s
  | EmptyString => s
  end.

(** [s.replace(/^\d+-/, '')] *)
Definition strip_numeric_prefix (s : string) : string :=
  match s with
  | String c _ =>
      if is_digit c then
        match skip_digits s with
        | String "-" r => r
        | _ => s
        end
      else s
  | EmptyString => s
  end.

End JsText.

(** ** The rest of the dashboard *)

Module Roster.
Import ShopDashboard.

Definition with_isLoading (v : bool) (s : State) : State :=
  {| printJobs := printJobs s; isLoading := v; activeTab := activeTab s;
     showQRModal := showQRModal s; searchQuery := searchQuery s;
     isAcceptingUploads := isAcceptingUploads s |}.

Definition setIsLoading v : Handler State unit := Handler.modify (with_isLoading v).

(** A job and a file as the server lists them.  [srv_files] is [None]
    when [files] is not an array (the old shape, with the one file on
    the job itself). *)
Record ServerFile := {
  srv_file_fileName : string;
  srv_file_filePath : string;
  srv_file_file_path : string;
  srv_file_fileSize : Z
}.

Record ServerJob := {
  srv__id : string;
  srv_token_number : string;
  srv_print_type : string;
  srv_print_side : string;
  srv_copies : Z;
  srv_status : string;
  srv_uploaded_at : Z;
  srv_files : option (list ServerFile);
  srv_fileName : string;
  srv_file_path : string;
  srv_fileSize : Z
}.

Definition formatServerFile (file : ServerFile) : PrintJobFile :=
  {| fileName := srv_file_fileName file;
     filePath := Js.or_str (srv_file_filePath file) (srv_file_file_path file);
     fileSize := srv_file_fileSize file |}.

Definition formatServerJob (job : ServerJob) : PrintJob :=
  {| id := srv__id job;
     token := srv_token_number job;
     printType := srv_print_type job;
     printSide := srv_print_side job;
     copies := srv_copies job;
     status := srv_status job;
     uploadTime := srv_uploaded_at job;
     files := match srv_files job with
              | Some fs => map formatServerFile fs
              | None => [ {| fileName := srv_fileName job;
                             filePath := srv_file_path job;
                             fileSize := srv_fileSize job |} ]
              end |}.

Section Page.
Variable cfg : Config.
Variable authToken : option string.
Variable authShopId : option string.

Definition jobs_request : Request :=
  {| req_method := "GET";
     req_url := PRINT_JOBS cfg +:+ "/prints/" +:+ Js.template authShopId;
     req_headers := [bearer authToken];
     req_body := NoBody |}.

Definition fetchJobs (net : Request -> FetchResult (list ServerJob))
  : Handler State unit :=
  setIsLoading true;;
  Handler.finally
    (Handler.try_catch
       (response ← Handler.fetch net jobs_request;
        (if negb (ok response)
         then Handler.throw (ErrorObj "Failed to fetch print jobs")
         else mret tt);;
        data ← Handler.await (json response);
        let formattedJobs := map formatServerJob data in
        setPrintJobs (fun _ => formattedJobs))
       (fun _ => toast_error "Failed to fetch print jobs"))
    (setIsLoading false).

End Page.

(** The number on a tab and in a statistics card:
    [printJobs.filter(job => job.status === tab).length]. *)
Definition count_status (st : string) (jobs : list PrintJob) : nat :=
  length (List.filter (fun job => String.eqb (status job) st) jobs).

Definition tab_count (t : Tab) (s : State) : nat :=
  count_status (tab_string t) (printJobs s).

(** Whether the three action buttons are rendered under a job. *)
Definition actions_shown (job : PrintJob) : bool :=
  String.eqb (status job) (tab_string STATUS_TYPES.PENDING).

(** [formatFileName] *)
Definition formatFileName (filePath : option string) : string :=
  match filePath with
  | Some path =>
      if Js.truthy path then
        let fileName :=
          match JsText.pop (JsText.split_path path) with
          | Some seg => Js.or_str seg ""
          | None => ""
          end in
        JsText.strip_numeric_prefix fileName
      else "File Deleted"
  | None => "File Deleted"
  end.

End Roster.

(** ** Downloads

    The download handlers act on the browser: they save a file and, for
    a batch, keep one toast that is first a spinner and is then
    replaced under the same id. *)

Module Downloads.
Import ShopDashboard.

Record SavedFile := { saved_name : string; saved_content : string }.

Inductive ToastKind := Loading | Success | Error.

Record Browser := {
  page : State;
  saved : list SavedFile;
  progress : option (ToastKind * string)
}.

(** A response read as a blob, with the one header the page reads. *)
Record BlobResponse := {
  blob_ok : bool;
  content_disposition : option string;
  blob : Completion string
}.

Inductive BlobResult :=
| BlobRejected (e : Thrown)
| BlobResolved (r : BlobResponse).

(** The download did not deliver a body: the request was rejected,
    the response was not 2xx, or the body could not be read. *)
Definition blob_failed (o : BlobResult) : Prop :=
  match o with
  | BlobRejected _ => True
  | BlobResolved r => blob_ok r = false \/ exists e, blob r = Throw e
  end.

Definition fetch_blob {S} (net : Request -> BlobResult) (req : Request)
  : Handler S BlobResponse :=
  fun s =>
    (match net req with
     | BlobRejected e => Throw e
     | BlobResolved r => Normal r
     end, s, [EFetch req]).

(** [error.message] for an [error] of type [any]. *)
Definition message_of (e : Thrown) : string :=
  match e with
  | ErrorObj m => m
  | NonError => "undefined"
  end.

(** The link with a [download] attribute is created, clicked and removed. *)
Definition save (name content : string) : Handler Browser unit :=
  Handler.modify (fun b =>
    {| page := page b;
       saved := saved b ++ [ {| saved_name := name; saved_content := content |} ];
       progress := progress b |}).

(** [toast.loading(msg)] and the calls that pass [{ id: toastId }]. *)
Definition set_progress (k : ToastKind) (msg : string) : Handler Browser unit :=
  Handler.modify (fun b =>
    {| page := page b; saved := saved b; progress := Some (k, msg) |}).

(** The name under which a batch is saved. *)
Definition download_filename (token : string) (contentDisposition : option string)
  : string :=
  let filename := "printjob-" +:+ token in
  match contentDisposition with
  | Some cd =>
      if Js.truthy cd then
        match JsText.match_filename cd with
        | Some group => group
        | None => filename
        end
      else filename
  | None => filename
  end.

Section Page.
(** [API_ENDPOINTS.FILE_DOWNLOAD] and
    [API_ENDPOINTS.PRINT_JOB_BATCH_DOWNLOAD] *)
Variable FILE_DOWNLOAD : string.
Variable PRINT_JOB_BATCH_DOWNLOAD : string.
Variable authToken : option string.

Definition file_request (filePath : string) : Request :=
  {| req_method := "GET";
     req_url := FILE_DOWNLOAD +:+ "?path=" +:+ JsText.encodeURIComponent filePath;
     req_headers := [bearer authToken];
     req_body := NoBody |}.

Definition handleDownloadFile (net : Request -> BlobResult)
    (filePath fileName : string) : Handler Browser unit :=
  if negb (Js.truthy filePath) then
    toast_error "File is not available for download"
  else
    Handler.try_catch
      (response ← fetch_blob net (file_request filePath);
       (if negb (blob_ok response)
        then Handler.throw (ErrorObj "Failed to download file")
        else mret tt);;
       content ← Handler.await (blob response);
       save fileName content;;
       if Js.truthy fileName then toast_success ("Downloaded: " +:+ fileName)
       else mret tt)
      (fun error => toast_error ("Download failed: " +:+ message_of error)).

Definition batch_request (token : string) : Request :=
  {| req_method := "GET";
     req_url := PRINT_JOB_BATCH_DOWNLOAD +:+ "/" +:+ token;
     req_headers := [bearer authToken];
     req_body := NoBody |}.

Definition handleDownloadFiles (net : Request -> BlobResult) (jobId : string)
  : Handler Browser unit :=
  set_progress Loading "Preparing download...";;
  Handler.try_catch
    (b ← Handler.get;
     match List.find (fun job => String.eqb (id job) jobId) (printJobs (page b)) with
     | None => set_progress Error "Job not found"
     | Some job =>
         response ← fetch_blob net (batch_request (token job));
         (if negb (blob_ok response)
          then Handler.throw (ErrorObj "Failed to download files")
          else mret tt);;
         let filename := download_filename (token job) (content_disposition response) in
         content ← Handler.await (blob response);
         save filename content;;
         set_progress Success "Download complete"
     end)
    (fun error =>
       console_error "Error downloading files:";;
       set_progress Error ("Download failed: " +:+ message_of error)).

End Page.

End Downloads.

(** ** More sample data *)

Module MoreSamples.

Definition accepted_reply : Response UploadPage.UploadReply :=
  {| ok := true; status := 201; text := Normal "";
     json := Normal {| UploadPage.token_number := "T42" |} |}.

(** A 2xx answer whose body is not JSON. *)
Definition garbled_reply : Response UploadPage.UploadReply :=
  {| ok := true; status := 200; text := Normal "<html>";
     json := Throw (ErrorObj "Unexpected token < in JSON") |}.

Definition garbled : Request -> FetchResult UploadPage.UploadReply :=
  fun _ => Resolved garbled_reply.

(** The page [Samples.showing] once the job was completed, and once
    it expired. *)
Definition finished : UploadPage.State :=
  UploadPage.with_jobStatus "completed" Samples.showing.

Definition lapsed : UploadPage.State :=
  UploadPage.with_jobStatus "expired" Samples.showing.

(** Prices as hundredths. *)
Definition shop_open : Request -> FetchResult (UploadView.ShopReply Z) :=
  fun _ => Resolved
    {| ok := true; status := 200; text := Normal "";
       json := Normal {| UploadView.shop_name := "Copy Corner";
                         UploadView.shop_bw_cost_per_page := 150;
                         UploadView.shop_color_cost_per_page := 500;
                         UploadView.shop_isAcceptingUploads := true |} |}.

Definition listed (i tok st : string) (fs : option (list Roster.ServerFile))
  : Roster.ServerJob :=
  {| Roster.srv__id := i; Roster.srv_token_number := tok;
     Roster.srv_print_type := "bw"; Roster.srv_print_side := "single";
     Roster.srv_copies := 1; Roster.srv_status := st;
     Roster.srv_uploaded_at := 1700000000000; Roster.srv_files := fs;
     Roster.srv_fileName := "old.pdf"; Roster.srv_file_path := "uploads/1-old.pdf";
     Roster.srv_fileSize := 10 |}.

(** The server lists one job in the old shape. *)
Definition jobs_listed : Request -> FetchResult (list Roster.ServerJob) :=
  fun _ => Resolved {| ok := true; status := 200; text := Normal "";
                       json := Normal [listed "j9" "T9" "pending" None] |}.

(** The dashboard in a browser that has saved nothing yet. *)
Definition browser : Downloads.Browser :=
  {| Downloads.page := Samples.dashboard; Downloads.saved := [];
     Downloads.progress := None |}.

(** The header [attachment; filename=], double quote, [prints-T42.zip],
    double quote. *)
Definition attachment_header : string :=
  "attachment; " +:+ JsText.filename_marker +:+ "prints-T42.zip"
  +:+ String JsText.double_quote "".

Definition zip_served : Request -> Downloads.BlobResult :=
  fun _ => Downloads.BlobResolved
    {| Downloads.blob_ok := true;
       Downloads.content_disposition := Some attachment_header;
       Downloads.blob := Normal "PK..." |}.

Definition blob_offline : Request -> Downloads.BlobResult :=
  fun _ => Downloads.BlobRejected (ErrorObj "Failed to fetch").

Definition slides : File := {| file_name := "slides.pptx"; file_size := Some 4096 |}.
Definition notes : File := {| file_name := "notes.docx"; file_size := Some 512 |}.

End MoreSamples.

(** ** Proof support *)

Ltac handler_unfold :=
  unfold toast_success, toast_error, toast_info, console_error,
    mbind, handler_bind, mret, handler_ret,
    Handler.bind, Handler.ret, Handler.get, Handler.modify, Handler.emit,
    Handler.throw, Handler.try_catch, Handler.finally, Handler.await,
    Handler.fetch in *.

Lemma requests_cons_fetch r t : requests (EFetch r :: t) = r :: requests t.
Proof. reflexivity. Qed.

Lemma truthy_nonempty s : Js.truthy s = true <-> s <> "".
Proof.
  unfold Js.truthy. destruct (String.eqb_spec s ""); simpl; split; congruence.
Qed.

(** ** The upload page *)

Section UploadPageFacts.
Import UploadPage.
Variable cfg : Config.

Ltac run_upload :=
  unfold handleSubmit, checkPreviousUpload, changeCopies, decrementCopies,
    incrementCopies, on, onDrop, removeFile,
    setIsShopClosed, setFiles, setPrintType, setPrintSide, setCopies,
    setIsUploading, setUploadComplete, setToken, setJobStatus,
    setItem, removeItem in *;
  handler_unfold.

(** *** The copies controls *)

Lemma changeCopies_run value s :
  changeCopies cfg value s
  = (Normal tt, with_copies (Js.or_num (Js.parseInt value) (MIN_COPIES cfg)) s, []).
Proof. reflexivity. Qed.

(** An empty, non-numeric or zero entry falls back to the minimum. *)
Lemma changeCopies_falsy value s :
  Js.parseInt value = Js.NaN \/ Js.parseInt value = Some 0 ->
  copies (final_state (changeCopies cfg value s)) = MIN_COPIES cfg.
Proof. intros [H|H]; rewrite changeCopies_run; cbn; rewrite H; reflexivity. Qed.

(** Any other integer is stored as typed, whatever the bounds. *)
Lemma changeCopies_nonzero value n s :
  Js.parseInt value = Some n -> n <> 0 ->
  copies (final_state (changeCopies cfg value s)) = n.
Proof.
  intros H Hn. rewrite changeCopies_run; cbn. rewrite H; cbn.
  destruct (Z.eqb_spec n 0); congruence.
Qed.

(** The two buttons never leave the configured range. *)
Lemma decrementCopies_range s :
  MIN_COPIES cfg <= copies s <= MAX_COPIES cfg ->
  MIN_COPIES cfg <= copies (final_state (decrementCopies cfg s)) <= MAX_COPIES cfg.
Proof.
  intros H. run_upload. destruct (Z.ltb_spec (MIN_COPIES cfg) (copies s)); cbn; lia.
Qed.

Lemma incrementCopies_range s :
  MIN_COPIES cfg <= copies s <= MAX_COPIES cfg ->
  MIN_COPIES cfg <= copies (final_state (incrementCopies cfg s)) <= MAX_COPIES cfg.
Proof.
  intros H. run_upload. destruct (Z.ltb_spec (copies s) (MAX_COPIES cfg)); cbn; lia.
Qed.

(** The payload carries the copies of the state unchanged. *)
Lemma form_data_copies s :
  In ("copies", FormText (Js.toString (copies s))) (form_data s).
Proof. unfold form_data. apply in_or_app. right. cbn. tauto. Qed.

(** *** Submission *)

Variable shopId : option string.

Lemma handleSubmit_empty net s :
  files s = [] ->
  handleSubmit cfg shopId net s
  = (Normal tt, s, [EToastError "Please select at least one file to upload"]).
Proof. intros H. run_upload. rewrite H. reflexivity. Qed.

Lemma handleSubmit_success net s r data :
  files s <> [] ->
  net (upload_request cfg shopId s) = Resolved r ->
  ok r = true ->
  json r = Normal data ->
  handleSubmit cfg shopId net s
  = (Normal tt,
     with_isUploading false
       (with_jobStatus "pending"
          (with_uploadComplete true
             (with_localStorage
                (<[storage_key shopId := token_number data]> (localStorage s))
                (with_token (token_number data) (with_isUploading true s))))),
     [EFetch (upload_request cfg shopId s);
      EToastSuccess (uploaded_message (length (files s)))]).
Proof.
  intros Hf Hnet Hok Hjson. run_upload.
  destruct (files s) as [|f fs] eqn:Hfs; [congruence|].
  cbn -[upload_request uploaded_message storage_key].
  rewrite Hnet; cbn -[upload_request uploaded_message storage_key].
  rewrite Hok; cbn -[upload_request uploaded_message storage_key].
  rewrite Hjson; cbn -[upload_request uploaded_message storage_key].
  reflexivity.
Qed.

(** Every way the request can fail ends in the [catch] clause with
    some message, and only [isUploading] is written. *)
Lemma handleSubmit_failure net s :
  files s <> [] ->
  no_reply (net (upload_request cfg shopId s)) ->
  exists msg,
    handleSubmit cfg shopId net s
    = (Normal tt, with_isUploading false (with_isUploading true s),
       [EFetch (upload_request cfg shopId s); EToastError msg]).
Proof.
  intros Hf Hfail. run_upload.
  destruct (files s) as [|f fs] eqn:Hfs; [congruence|].
  cbn -[upload_request uploaded_message storage_key].
  destruct (net (upload_request cfg shopId s)) as [e|r];
    cbn -[upload_request uploaded_message storage_key] in *.
  - eexists; reflexivity.
  - destruct (ok r) eqn:Hok; cbn -[upload_request uploaded_message storage_key].
    + destruct Hfail as [Hfail|[e He]]; [discriminate|].
      rewrite He; cbn -[upload_request]. eexists; reflexivity.
    + destruct (text r); cbn -[upload_request]; eexists; reflexivity.
Qed.

Lemma failed_no_reply {J} (o : FetchResult J) : failed o -> no_reply o.
Proof. destruct o; cbn; auto. Qed.

End UploadPageFacts.

Section UploadPageClaims.
Import UploadPage.

Lemma submitForm_run cfg shopId net s :
  UploadView.submitForm cfg shopId net s
  = if UploadView.submit_disabled s then (Normal tt, s, [])
    else if UploadView.copies_input_valid cfg s then handleSubmit cfg shopId net s
    else (Normal tt, s, []).
Proof.
  unfold UploadView.submitForm. handler_unfold.
  destruct (UploadView.submit_disabled s); [reflexivity|].
  destruct (UploadView.copies_input_valid cfg s); [|reflexivity].
  destruct (handleSubmit cfg shopId net s) as [[c s'] t]. reflexivity.
Qed.

Lemma handleSubmit_requests cfg shopId net s :
  files s <> [] ->
  requests (trace (handleSubmit cfg shopId net s)) = [upload_request cfg shopId s].
Proof.
  intros Hf.
  destruct (net (upload_request cfg shopId s)) as [e|r] eqn:Hnet.
  - destruct (handleSubmit_failure cfg shopId net s Hf) as [msg ->];
      [rewrite Hnet; exact I|reflexivity].
  - destruct (ok r) eqn:Hok; [destruct (json r) as [data|e] eqn:Hj|].
    + rewrite (handleSubmit_success cfg shopId net s r data Hf Hnet Hok Hj).
      reflexivity.
    + destruct (handleSubmit_failure cfg shopId net s Hf) as [msg ->];
        [rewrite Hnet; right; eauto|reflexivity].
    + destruct (handleSubmit_failure cfg shopId net s Hf) as [msg ->];
        [rewrite Hnet; left; exact Hok|reflexivity].
Qed.

(** C1 as stated fails: with a minimum of 1, typing [-5] into the
    copies input leaves the count at -5; the entry is not clamped to
    the minimum. *)
Lemma typed_count_below_minimum_is_not_clamped :
  ~ (forall value n,
       Js.parseInt value = Some n ->
       n < MIN_COPIES Samples.cfg ->
       copies (final_state (changeCopies Samples.cfg value Samples.selected))
       = MIN_COPIES Samples.cfg).
Proof.
  intros H. specialize (H "-5" (-5) eq_refl eq_refl). vm_compute in H. discriminate.
Qed.

(** C1, amended: a value typed into the copies input is stored as
    parsed, with the configured minimum in place of an empty,
    non-numeric or zero entry, and is not clamped.  The form is only
    submitted while the copies field is within its [min] and [max], so
    the copies field of every upload request is at least the configured
    minimum and at most the maximum: a count below the minimum blocks
    the submission, and nothing is sent or changed. *)
Theorem submitted_copies_are_within_bounds
    (cfg : Config) (shopId : option string)
    (net : Request -> FetchResult UploadReply) (value : string) (s : State) :
  let typed := final_state (changeCopies cfg value s) in
  (Js.parseInt value = Js.NaN \/ Js.parseInt value = Some 0 ->
     copies typed = MIN_COPIES cfg)
  /\ (forall n, Js.parseInt value = Some n -> n <> 0 -> copies typed = n)
  /\ (forall s' req,
        In req (requests (trace (UploadView.submitForm cfg shopId net s'))) ->
        req = upload_request cfg shopId s'
        /\ In ("copies", FormText (Js.toString (copies s')))
              (form_data s')
        /\ req_body req = FormData (form_data s')
        /\ MIN_COPIES cfg <= copies s' <= MAX_COPIES cfg)
  /\ (forall s',
        copies s' < MIN_COPIES cfg ->
        UploadView.submitForm cfg shopId net s' = (Normal tt, s', [])).
Proof.
  intros typed. subst typed.
  split; [apply changeCopies_falsy|]. split; [intros n; apply changeCopies_nonzero|].
  split.
  - intros s' req Hin. rewrite submitForm_run in Hin.
    destruct (UploadView.submit_disabled s') eqn:Hd; [contradiction|].
    destruct (UploadView.copies_input_valid cfg s') eqn:Hv; [|contradiction].
    assert (Hf : files s' <> []).
    { intros Hf. unfold UploadView.submit_disabled in Hd. rewrite Hf in Hd.
      discriminate. }
    rewrite (handleSubmit_requests cfg shopId net s' Hf) in Hin.
    destruct Hin as [<-|[]].
    unfold UploadView.copies_input_valid in Hv. apply andb_true_iff in Hv.
    destruct Hv as [Hmin Hmax]. apply Z.leb_le in Hmin. apply Z.leb_le in Hmax.
    split; [reflexivity|]. split; [apply form_data_copies|].
    split; [reflexivity|]. split; assumption.
  - intros s' Hlt. rewrite submitForm_run.
    destruct (UploadView.submit_disabled s'); [reflexivity|].
    unfold UploadView.copies_input_valid.
    destruct (Z.leb_spec (MIN_COPIES cfg) (copies s')); [lia|reflexivity].
Qed.

Lemma submitted_copies_are_within_bounds_witness :
  copies (final_state (changeCopies Samples.cfg "" Samples.selected)) = 1
  /\ copies (final_state (changeCopies Samples.cfg "3" Samples.selected)) = 3
  /\ UploadView.submitForm Samples.cfg (Some "shop1") Samples.upload_accepted
       Samples.typed_minus_five
     = (Normal tt, Samples.typed_minus_five, []).
Proof.
  pose proof (submitted_copies_are_within_bounds Samples.cfg (Some "shop1")
                Samples.upload_accepted "" Samples.selected) as (H1 & _ & _ & H4).
  pose proof (submitted_copies_are_within_bounds Samples.cfg (Some "shop1")
                Samples.upload_accepted "3" Samples.selected) as (_ & H2 & _).
  split; [apply H1; left; reflexivity|].
  split; [apply (H2 3); [reflexivity|discriminate]|].
  apply H4. reflexivity.
Defined.

(** C2: a submission with a non-empty file list issues exactly one
    request, the [POST] of the form to [{uploadBase}/{shopId}]; when
    that request resolves with a 2xx response whose JSON body carries
    a token, the token is stored under [uploadToken_{shopId}] and shown,
    the view is upload-complete, the status is pending and the only
    notification is the success toast. *)
Theorem submit_uploads_once_and_stores_token
    (cfg : Config) (sid : string)
    (net : Request -> FetchResult UploadReply) (s : State) :
  files s <> [] ->
  let req := upload_request cfg (Some sid) s in
  let run := handleSubmit cfg (Some sid) net s in
  requests (trace run) = [req]
  /\ req_method req = "POST"
  /\ req_url req = UPLOAD_FILE cfg +:+ "/" +:+ sid
  /\ req_body req
     = FormData (map (fun f => ("files", FormFile f)) (files s)
                 ++ [ ("print_type", FormText (printType s));
                      ("print_side", FormText (printSide s));
                      ("copies", FormText (Js.toString (copies s))) ])
  /\ forall r data,
       net req = Resolved r -> ok r = true -> json r = Normal data ->
       localStorage (final_state run) !! ("uploadToken_" +:+ sid)
         = Some (token_number data)
       /\ token (final_state run) = token_number data
       /\ uploadComplete (final_state run) = true
       /\ jobStatus (final_state run) = "pending"
       /\ trace run
          = [EFetch req; EToastSuccess (uploaded_message (length (files s)))].
Proof.
  intros Hf req run.
  assert (Hreq : requests (trace run) = [req]).
  { subst run req.
    destruct (net (upload_request cfg (Some sid) s)) as [e|r] eqn:Hnet.
    - destruct (handleSubmit_failure cfg (Some sid) net s Hf) as [msg ->].
      + rewrite Hnet; exact I.
      + reflexivity.
    - destruct (ok r) eqn:Hok; [destruct (json r) as [data|e] eqn:Hj|].
      + rewrite (handleSubmit_success cfg (Some sid) net s r data Hf Hnet Hok Hj).
        reflexivity.
      + destruct (handleSubmit_failure cfg (Some sid) net s Hf) as [msg ->].
        * rewrite Hnet; right; eauto.
        * reflexivity.
      + destruct (handleSubmit_failure cfg (Some sid) net s Hf) as [msg ->].
        * rewrite Hnet; left; exact Hok.
        * reflexivity. }
  repeat split; try reflexivity; try exact Hreq.
  all: subst run;
    rewrite (handleSubmit_success cfg (Some sid) net s r data Hf H H0 H1);
    try reflexivity.
  cbn. apply lookup_insert_eq.
Qed.

Lemma submit_uploads_once_and_stores_token_witness :
  let run := handleSubmit Samples.cfg (Some "shop1") Samples.upload_accepted
               Samples.selected in
  localStorage (final_state run) !! "uploadToken_shop1" = Some "T42"
  /\ jobStatus (final_state run) = "pending".
Proof.
  assert (Hf : files Samples.selected <> []) by (vm_compute; discriminate).
  destruct (submit_uploads_once_and_stores_token Samples.cfg "shop1"
              Samples.upload_accepted Samples.selected Hf)
    as (_ & _ & _ & _ & H).
  destruct (H _ _ eq_refl eq_refl eq_refl) as (H1 & _ & _ & H4 & _).
  split; [exact H1 | exact H4].
Defined.

(** C3: when the upload request is rejected or answered with a
    non-2xx response, the page shows an error toast, has issued that
    one request and no other, and keeps the selected files, print
    type, print side, copies, shown token, stored token and the
    upload-complete flag as they were. *)
Theorem failed_submit_keeps_selection
    (cfg : Config) (shopId : option string)
    (net : Request -> FetchResult UploadReply) (s : State) :
  files s <> [] ->
  failed (net (upload_request cfg shopId s)) ->
  let run := handleSubmit cfg shopId net s in
  (exists msg,
      trace run = [EFetch (upload_request cfg shopId s); EToastError msg])
  /\ requests (trace run) = [upload_request cfg shopId s]
  /\ files (final_state run) = files s
  /\ printType (final_state run) = printType s
  /\ printSide (final_state run) = printSide s
  /\ copies (final_state run) = copies s
  /\ token (final_state run) = token s
  /\ localStorage (final_state run) = localStorage s
  /\ uploadComplete (final_state run) = uploadComplete s
  /\ jobStatus (final_state run) = jobStatus s
  /\ isUploading (final_state run) = false.
Proof.
  intros Hf Hfail run. subst run.
  destruct (handleSubmit_failure cfg shopId net s Hf (failed_no_reply _ Hfail))
    as [msg ->].
  split; [exists msg; reflexivity|]. repeat split.
Qed.

Lemma failed_submit_keeps_selection_witness :
  let run := handleSubmit Samples.cfg (Some "shop1") Samples.offline
               Samples.selected in
  files (final_state run) = [Samples.report]
  /\ requests (trace run)
     = [upload_request Samples.cfg (Some "shop1") Samples.selected].
Proof.
  assert (Hf : files Samples.selected <> []) by (vm_compute; discriminate).
  destruct (failed_submit_keeps_selection Samples.cfg (Some "shop1")
              Samples.offline Samples.selected Hf I)
    as (_ & Hreq & Hfiles & _).
  split; [exact Hfiles | exact Hreq].
Defined.

(** C4: a single-job or batch status event whose token equals the
    token shown on the page sets the visible status to the status of
    the event and changes nothing else; an event with another token
    is ignored: the state is unchanged and nothing is shown. *)
Theorem status_event_applies_to_shown_token_only
    (shopId : option string) (e : SocketEvent) (tok st : string) (s : State) :
  status_update e = Some (tok, st) ->
  (tok = token s ->
     final_state (on shopId e s) = with_jobStatus st s
     /\ jobStatus (final_state (on shopId e s)) = st)
  /\ (tok <> token s -> on shopId e s = (Normal tt, s, [])).
Proof.
  intros He.
  destruct e as [| b | i t u | t u c |]; cbn in He; try discriminate;
    injection He as -> ->.
  all: unfold on, setJobStatus; handler_unfold; cbn.
  all: destruct (String.eqb_spec tok (token s)) as [Heq|Hne].
  all: split; intros H; try congruence.
  all: destruct (String.eqb st "completed"); [|destruct (String.eqb st "deleted")];
    cbn; split; reflexivity.
Qed.

Lemma status_event_applies_to_shown_token_only_witness :
  jobStatus (final_state (on (Some "shop1")
                            (batchStatusUpdate "T42" "completed" 2)
                            Samples.showing)) = "completed"
  /\ on (Some "shop1") (jobStatusUpdate "j9" "T7" "completed") Samples.showing
     = (Normal tt, Samples.showing, []).
Proof.
  split.
  - apply (status_event_applies_to_shown_token_only (Some "shop1")
             (batchStatusUpdate "T42" "completed" 2) "T42" "completed"
             Samples.showing eq_refl).
    reflexivity.
  - apply (status_event_applies_to_shown_token_only (Some "shop1")
             (jobStatusUpdate "j9" "T7" "completed") "T7" "completed"
             Samples.showing eq_refl).
    vm_compute; discriminate.
Defined.

(** *** Recovery on page load *)

Lemma checkPreviousUpload_success cfg sid net s tok r job :
  Js.truthy sid = true ->
  localStorage s !! ("uploadToken_" +:+ sid) = Some tok ->
  Js.truthy tok = true ->
  net (status_request cfg tok) = Resolved r ->
  ok r = true ->
  json r = Normal job ->
  checkPreviousUpload cfg (Some sid) net s
  = (Normal tt,
     with_copies (reply_copies job)
       (with_printSide (reply_print_side job)
          (with_printType (reply_print_type job)
             (with_files [ {| file_name := reply_fileName job; file_size := None |} ]
                (with_uploadComplete true
                   (with_jobStatus (reply_status job) (with_token tok s)))))),
     [EFetch (status_request cfg tok)]).
Proof.
  intros Hsid Hget Htok Hnet Hok Hjson.
  unfold checkPreviousUpload, storage_key, setToken, setJobStatus,
    setUploadComplete, setFiles, setPrintType, setPrintSide, setCopies.
  handler_unfold. cbn -[status_request].
  rewrite Hget, Htok, Hsid; cbn -[status_request].
  rewrite Hnet; cbn -[status_request].
  rewrite Hok; cbn -[status_request].
  rewrite Hjson; cbn -[status_request].
  reflexivity.
Qed.

Lemma checkPreviousUpload_failure cfg sid net s tok :
  Js.truthy sid = true ->
  localStorage s !! ("uploadToken_" +:+ sid) = Some tok ->
  Js.truthy tok = true ->
  no_reply (net (status_request cfg tok)) ->
  checkPreviousUpload cfg (Some sid) net s
  = (Normal tt,
     with_localStorage (delete ("uploadToken_" +:+ sid) (localStorage s)) s,
     [EFetch (status_request cfg tok)]).
Proof.
  intros Hsid Hget Htok Hfail.
  unfold checkPreviousUpload, storage_key, removeItem.
  handler_unfold. cbn -[status_request].
  rewrite Hget, Htok, Hsid; cbn -[status_request].
  destruct (net (status_request cfg tok)) as [e|r]; cbn -[status_request] in *.
  - reflexivity.
  - destruct (ok r); cbn -[status_request].
    + destruct Hfail as [Hfail|[e He]]; [discriminate|].
      rewrite He. reflexivity.
    + reflexivity.
Qed.

(** Without a stored token, or with an empty one, nothing happens. *)
Lemma checkPreviousUpload_nothing_stored cfg shopId net s :
  localStorage s !! storage_key shopId = None
  \/ localStorage s !! storage_key shopId = Some "" ->
  checkPreviousUpload cfg shopId net s = (Normal tt, s, []).
Proof.
  intros [H|H]; unfold checkPreviousUpload; handler_unfold; rewrite H;
    reflexivity.
Qed.

(** C6: on page load with a token stored for the shop, the page
    issues exactly one request, the [GET] of
    [{jobStatusBase}/{token}], and no upload.  When it answers with
    a 2xx JSON body, status, print mode, sidedness, copies and the
    file name are taken from the body, the token is shown and the
    flow is marked completed, without any notification.  When it
    fails (rejected, non-2xx, unreadable body), the stored token is
    removed, nothing else changes and no notification is shown. *)
Theorem recovery_fetches_status_or_forgets_token
    (cfg : Config) (sid tok : string)
    (net : Request -> FetchResult StatusReply) (s : State) :
  Js.truthy sid = true ->
  localStorage s !! ("uploadToken_" +:+ sid) = Some tok ->
  Js.truthy tok = true ->
  let req := status_request cfg tok in
  let run := checkPreviousUpload cfg (Some sid) net s in
  trace run = [EFetch req]
  /\ req_method req = "GET"
  /\ req_url req = PRINT_JOB_STATUS cfg +:+ "/" +:+ tok
  /\ (forall r job,
        net req = Resolved r -> ok r = true -> json r = Normal job ->
        jobStatus (final_state run) = reply_status job
        /\ printType (final_state run) = reply_print_type job
        /\ printSide (final_state run) = reply_print_side job
        /\ copies (final_state run) = reply_copies job
        /\ map file_name (files (final_state run)) = [reply_fileName job]
        /\ token (final_state run) = tok
        /\ uploadComplete (final_state run) = true
        /\ localStorage (final_state run) = localStorage s)
  /\ (no_reply (net req) ->
        final_state run
        = with_localStorage (delete ("uploadToken_" +:+ sid) (localStorage s)) s
        /\ localStorage (final_state run) !! ("uploadToken_" +:+ sid) = None).
Proof.
  intros Hsid Hget Htok req run.
  assert (Hcases :
    no_reply (net req)
    \/ exists r job, net req = Resolved r /\ ok r = true /\ json r = Normal job).
  { destruct (net req) as [e|r] eqn:Hnet; cbn; [left; exact I|].
    destruct (ok r) eqn:Hok; [|left; left; reflexivity].
    destruct (json r) as [job|e] eqn:Hj; [right; eauto|left; right; eauto]. }
  split; [|split; [reflexivity|split; [reflexivity|split]]].
  - subst run req. destruct Hcases as [Hfail|(r & job & Hnet & Hok & Hj)].
    + rewrite (checkPreviousUpload_failure cfg sid net s tok); auto.
    + rewrite (checkPreviousUpload_success cfg sid net s tok r job); auto.
  - intros r job Hnet Hok Hj. subst run req.
    rewrite (checkPreviousUpload_success cfg sid net s tok r job); auto.
    repeat split.
  - intros Hfail. subst run req.
    rewrite (checkPreviousUpload_failure cfg sid net s tok); auto.
    split; [reflexivity|]. cbn. apply lookup_delete_eq.
Qed.

Lemma recovery_fetches_status_or_forgets_token_witness :
  trace (checkPreviousUpload Samples.cfg (Some "shop1") Samples.status_found
           Samples.returning)
  = [EFetch (status_request Samples.cfg "T42")]
  /\ localStorage
       (final_state (checkPreviousUpload Samples.cfg (Some "shop1")
                       Samples.offline Samples.returning))
     !! "uploadToken_shop1" = None.
Proof.
  split.
  - apply (recovery_fetches_status_or_forgets_token Samples.cfg "shop1" "T42"
             Samples.status_found Samples.returning);
      vm_compute; reflexivity.
  - apply (recovery_fetches_status_or_forgets_token Samples.cfg "shop1" "T42"
             Samples.offline Samples.returning); try exact I;
      vm_compute; reflexivity.
Defined.

End UploadPageClaims.

(** ** The shop dashboard *)

Section RosterFacts.
Import ShopDashboard.

Lemma with_status_status st job : status (with_status st job) = st.
Proof. reflexivity. Qed.

Lemma with_status_id st job : id (with_status st job) = id job.
Proof. reflexivity. Qed.

Lemma with_status_token st job : token (with_status st job) = token job.
Proof. reflexivity. Qed.

(** Two jobs that differ at most in their status. *)
Lemma with_status_erase st st' job :
  with_status st' (with_status st job) = with_status st' job.
Proof. reflexivity. Qed.

Lemma update_by_token_length tok st jobs :
  length (update_by_token tok st jobs) = length jobs.
Proof. unfold update_by_token. apply length_map. Qed.


Lemma update_by_token_nth tok st jobs n job :
  nth_error jobs n = Some job ->
  nth_error (update_by_token tok st jobs) n
  = Some (if String.eqb (token job) tok then with_status st job else job).
Proof.
  intros H. unfold update_by_token. rewrite nth_error_map, H. reflexivity.
Qed.

Lemma update_by_id_nth i st jobs n job :
  nth_error jobs n = Some job ->
  nth_error (update_by_id i st jobs) n
  = Some (if String.eqb (id job) i then with_status st job else job).
Proof.
  intros H. unfold update_by_id. rewrite nth_error_map, H. reflexivity.
Qed.





Lemma existsb_id_In i jobs :
  existsb (fun job => String.eqb (id job) i) jobs = true <-> In i (map id jobs).
Proof.
  rewrite existsb_exists, in_map_iff. split.
  - intros (job & Hin & Heq). apply String.eqb_eq in Heq. eauto.
  - intros (job & Heq & Hin). exists job. split; [exact Hin|].
    apply String.eqb_eq. exact Heq.
Qed.

Lemma insert_job_present job jobs :
  In (id job) (map id jobs) -> insert_job job jobs = jobs.
Proof.
  intros H. unfold insert_job. apply existsb_id_In in H. rewrite H. reflexivity.
Qed.

Lemma insert_job_fresh job jobs :
  ~ In (id job) (map id jobs) -> insert_job job jobs = job :: jobs.
Proof.
  intros H. unfold insert_job.
  destruct (existsb _ jobs) eqn:E; [|reflexivity].
  apply existsb_id_In in E. contradiction.
Qed.


(** The roster after an event, whatever else the handler does. *)
Lemma on_printJobs authShopId e s :
  printJobs (final_state (on authShopId e s))
  = match e with
    | newBatchPrintJob now newJob => insert_job (formatJob now newJob) (printJobs s)
    | jobStatusUpdate i st => update_by_id i st (printJobs s)
    | batchStatusUpdate tok st => update_by_token tok st (printJobs s)
    | connect | disconnect => printJobs s
    end.
Proof.
  destruct e as [| now nj | i st | tok st |]; unfold on, setPrintJobs;
    handler_unfold; cbn; try reflexivity.
  all: destruct (String.eqb st "completed"); [|destruct (String.eqb st "deleted")];
    reflexivity.
Qed.

(** An event writes the roster and nothing else. *)
Lemma on_frame authShopId e s :
  final_state (on authShopId e s)
  = with_printJobs (printJobs (final_state (on authShopId e s))) s.
Proof.
  destruct s as [jobs l t q sq a].
  destruct e as [| now nj | i st | tok st |]; unfold on, setPrintJobs;
    handler_unfold; cbn; try reflexivity.
  all: destruct (String.eqb st "completed"); [|destruct (String.eqb st "deleted")];
    reflexivity.
Qed.

End RosterFacts.

Section DashboardClaims.
Import ShopDashboard.

(** C5: a batch status event sets the status of every job of the
    roster that carries the token of the event, and leaves every other
    job, the order and size of the roster and the rest of the page
    state as they were. *)
Theorem batch_event_updates_every_job_of_token
    (authShopId : option string) (tok st : string) (s : State) :
  let s' := final_state (on authShopId (batchStatusUpdate tok st) s) in
  length (printJobs s') = length (printJobs s)
  /\ (forall n job,
        nth_error (printJobs s) n = Some job ->
        (token job = tok ->
           nth_error (printJobs s') n = Some (with_status st job)
           /\ status (with_status st job) = st)
        /\ (token job <> tok -> nth_error (printJobs s') n = Some job))
  /\ s' = with_printJobs (printJobs s') s.
Proof.
  intros s'. subst s'.
  split; [|split; [|apply on_frame]]; rewrite on_printJobs.
  { apply update_by_token_length. }
  intros n job Hn. rewrite (update_by_token_nth tok st _ n job Hn).
  destruct (String.eqb_spec (token job) tok); split; intros H;
    try congruence; split; reflexivity.
Qed.

Lemma batch_event_updates_every_job_of_token_witness :
  let s' := final_state (on (Some "shop1") (batchStatusUpdate "T42" "completed")
                           Samples.dashboard) in
  nth_error (printJobs s') 0 = Some (Samples.job "j1" "T42" "completed")
  /\ nth_error (printJobs s') 1 = Some (Samples.job "j2" "T42" "completed")
  /\ nth_error (printJobs s') 2 = Some (Samples.job "j3" "T7" "pending").
Proof.
  pose proof (batch_event_updates_every_job_of_token (Some "shop1") "T42"
                "completed" Samples.dashboard) as (_ & H & _).
  split; [|split].
  - apply (H 0%nat _ eq_refl). reflexivity.
  - apply (H 1%nat _ eq_refl). reflexivity.
  - apply (H 2%nat _ eq_refl). vm_compute; discriminate.
Defined.

(** C7: the toggle issues the one [PUT] to
    [{shopBase}/{shopId}/toggle-uploads] with the inverted flag; the
    local flag is inverted exactly when that request resolves with a
    2xx response, and otherwise the page state is unchanged and the
    error toast is shown. *)
Theorem toggle_flips_iff_request_succeeds
    (cfg : Config) (authToken authShopId : option string)
    (net : Request -> FetchResult unit) (s : State) :
  let req := toggle_request cfg authToken authShopId s in
  let run := handleToggleUploads cfg authToken authShopId net s in
  requests (trace run) = [req]
  /\ req_method req = "PUT"
  /\ req_url req
     = SHOP_DETAILS cfg +:+ "/" +:+ Js.template authShopId +:+ "/toggle-uploads"
  /\ req_body req
     = JsonObject [("isAcceptingUploads", JBool (negb (isAcceptingUploads s)))]
  /\ (isAcceptingUploads (final_state run) = negb (isAcceptingUploads s)
      <-> succeeded (net req) = true)
  /\ (succeeded (net req) = false ->
        final_state run = s
        /\ trace run = [EFetch req; EToastError "Failed to update shop status"])
  /\ (succeeded (net req) = true ->
        final_state run = with_isAcceptingUploads (negb (isAcceptingUploads s)) s
        /\ List.filter is_toast_error (trace run) = []).
Proof.
  intros req run. subst run req.
  unfold handleToggleUploads, setIsAcceptingUploads. handler_unfold.
  cbn -[toggle_request].
  destruct (net (toggle_request cfg authToken authShopId s)) as [e|r];
    cbn -[toggle_request]; [|destruct (ok r); cbn -[toggle_request]].
  all: repeat split; try reflexivity; try discriminate.
  all: try (intros H; exfalso; revert H; destruct (isAcceptingUploads s); discriminate).
  all: destruct s; reflexivity.
Qed.

Lemma toggle_flips_iff_request_succeeds_witness :
  final_state (handleToggleUploads Samples.cfg (Some "jwt") (Some "shop1")
                 Samples.offline Samples.dashboard)
  = Samples.dashboard
  /\ isAcceptingUploads
       (final_state (handleToggleUploads Samples.cfg (Some "jwt") (Some "shop1")
                       Samples.accepted Samples.dashboard))
     = true.
Proof.
  split.
  - apply (toggle_flips_iff_request_succeeds Samples.cfg (Some "jwt")
             (Some "shop1") Samples.offline Samples.dashboard).
    reflexivity.
  - apply (toggle_flips_iff_request_succeeds Samples.cfg (Some "jwt")
             (Some "shop1") Samples.accepted Samples.dashboard).
    reflexivity.
Defined.

(** C8: marking a job completed sends the one [PUT] and, whether it
    succeeds or fails, leaves the whole page state, and so every job
    of the roster, as it was; the job's status becomes completed only
    when the [jobStatusUpdate] event for it is handled. *)
Theorem mark_completed_changes_no_state
    (cfg : Config) (authToken authShopId : option string)
    (net : Request -> FetchResult unit) (jobId : string) (s : State) :
  let run := handleMarkAsCompleted cfg authToken net jobId s in
  final_state run = s
  /\ printJobs (final_state run) = printJobs s
  /\ requests (trace run) = [mark_completed_request cfg authToken jobId]
  /\ (forall n job,
        nth_error (printJobs s) n = Some job -> id job = jobId ->
        nth_error
          (printJobs (final_state (on authShopId
                                     (jobStatusUpdate jobId "completed")
                                     (final_state run)))) n
        = Some (with_status "completed" job)).
Proof.
  intros run.
  assert (Hs : final_state run = s /\
               requests (trace run) = [mark_completed_request cfg authToken jobId]).
  { subst run. unfold handleMarkAsCompleted. handler_unfold.
    cbn -[mark_completed_request].
    destruct (net (mark_completed_request cfg authToken jobId)) as [e|r];
      cbn -[mark_completed_request]; [|destruct (ok r); cbn -[mark_completed_request]].
    all: split; reflexivity. }
  destruct Hs as [Hs Hreq]. rewrite Hs.
  repeat split; try assumption.
  intros n job Hn Hid. rewrite on_printJobs.
  rewrite (update_by_id_nth jobId "completed" _ n job Hn).
  apply String.eqb_eq in Hid. rewrite Hid. reflexivity.
Qed.

Lemma mark_completed_changes_no_state_witness :
  final_state (handleMarkAsCompleted Samples.cfg (Some "jwt") Samples.accepted
                 "j1" Samples.dashboard)
  = Samples.dashboard
  /\ nth_error
       (printJobs
          (final_state
             (on (Some "shop1") (jobStatusUpdate "j1" "completed")
                (final_state (handleMarkAsCompleted Samples.cfg (Some "jwt")
                                Samples.accepted "j1" Samples.dashboard))))) 0
     = Some (Samples.job "j1" "T42" "completed").
Proof.
  pose proof (mark_completed_changes_no_state Samples.cfg (Some "jwt")
                (Some "shop1") Samples.accepted "j1" Samples.dashboard)
    as (H1 & _ & _ & H4).
  split; [exact H1|]. exact (H4 0%nat _ eq_refl eq_refl).
Defined.

End DashboardClaims.

Section RosterClaims.
Import ShopDashboard.



End RosterClaims.

Section SearchText.

Lemma append_cons c a b : String c a +:+ b = String c (a +:+ b).
Proof. reflexivity. Qed.

Lemma append_nil b : "" +:+ b = b.
Proof. reflexivity. Qed.

Lemma prefix_iff q s : String.prefix q s = true <-> exists b, s = q +:+ b.
Proof.
  revert s. induction q as [|c q IH]; intros s.
  - split; [intros _; exists s; reflexivity|intros _; destruct s; reflexivity].
  - destruct s as [|d s].
    + split; [discriminate|intros [b Hb]; rewrite append_cons in Hb; discriminate].
    + cbn [String.prefix]. destruct (ascii_dec c d) as [->|Hne].
      * rewrite IH. split; intros [b Hb]; exists b.
        -- rewrite append_cons. f_equal. exact Hb.
        -- rewrite append_cons in Hb. injection Hb as Hb. exact Hb.
      * split; [discriminate|]. intros [b Hb]. rewrite append_cons in Hb. congruence.
Qed.

Lemma includes_unfold s q :
  Js.includes s q
  = if String.prefix q s then true
    else match s with
         | String _ s' => Js.includes s' q
         | EmptyString => false
         end.
Proof. destruct s; reflexivity. Qed.

(** [includes] finds exactly the occurrences of its argument. *)
Lemma includes_iff s q :
  Js.includes s q = true <-> exists a b, s = a +:+ q +:+ b.
Proof.
  split.
  - induction s as [|c s IH]; rewrite includes_unfold;
      destruct (String.prefix q _) eqn:Hp.
    + intros _. apply prefix_iff in Hp. destruct Hp as [b Hb]. exists "", b. exact Hb.
    + discriminate.
    + intros _. apply prefix_iff in Hp. destruct Hp as [b Hb]. exists "", b. exact Hb.
    + intros H. destruct (IH H) as (a & b & Hab).
      exists (String c a), b. rewrite append_cons. congruence.
  - intros (a & b & ->). induction a as [|c a IH]; rewrite includes_unfold.
    + replace (String.prefix q ("" +:+ q +:+ b)) with true; [reflexivity|].
      symmetry. apply prefix_iff. exists b. reflexivity.
    + rewrite append_cons. destruct (String.prefix q _); [reflexivity|exact IH].
Qed.

Lemma toLowerCase_app a b :
  Js.toLowerCase (a +:+ b) = Js.toLowerCase a +:+ Js.toLowerCase b.
Proof.
  induction a as [|c a IH]; [reflexivity|].
  rewrite append_cons. cbn [Js.toLowerCase]. rewrite IH. reflexivity.
Qed.

Lemma toLowerCase_split t x y :
  Js.toLowerCase t = x +:+ y ->
  exists t1 t2, t = t1 +:+ t2 /\ Js.toLowerCase t1 = x /\ Js.toLowerCase t2 = y.
Proof.
  revert t. induction x as [|c x IH]; intros t H.
  - exists "", t. repeat split. exact H.
  - destruct t as [|d t]; [discriminate H|].
    rewrite append_cons in H. cbn [Js.toLowerCase] in H. injection H as Hc Ht.
    destruct (IH t Ht) as (t1 & t2 & -> & H1 & H2).
    exists (String d t1), t2. rewrite append_cons. cbn [Js.toLowerCase].
    repeat split; congruence.
Qed.

(** Folding two characters gives the same character exactly when they
    are the same letter up to case; checked on all pairs of bytes. *)
Lemma same_letter_all_bytes :
  forallb (fun n =>
    forallb (fun m =>
      Bool.eqb (Js.same_letter (ascii_of_nat n) (ascii_of_nat m))
               (Ascii.eqb (Js.lower_ascii (ascii_of_nat n))
                          (Js.lower_ascii (ascii_of_nat m))))
      (seq 0 256)) (seq 0 256) = true.
Proof. vm_compute. reflexivity. Qed.

Lemma same_letter_iff a b :
  Js.same_letter a b = true <-> Js.lower_ascii a = Js.lower_ascii b.
Proof.
  pose proof same_letter_all_bytes as H. rewrite forallb_forall in H.
  specialize (H (nat_of_ascii a)). rewrite forallb_forall in H.
  assert (Ha : (nat_of_ascii a < 256)%nat) by apply nat_ascii_bounded.
  assert (Hb : (nat_of_ascii b < 256)%nat) by apply nat_ascii_bounded.
  specialize (H ltac:(apply in_seq; lia) (nat_of_ascii b) ltac:(apply in_seq; lia)).
  rewrite !ascii_nat_embedding in H. apply Bool.eqb_prop in H. rewrite H.
  apply Ascii.eqb_eq.
Qed.

Lemma same_ignoring_case_iff x y :
  Js.same_ignoring_case x y = true <-> Js.toLowerCase x = Js.toLowerCase y.
Proof.
  revert y. induction x as [|a x IH]; intros [|b y]; cbn.
  - split; reflexivity.
  - split; discriminate.
  - split; discriminate.
  - rewrite andb_true_iff, same_letter_iff, IH. split.
    + intros [-> ->]. reflexivity.
    + intros H. injection H as H1 H2. split; assumption.
Qed.

Lemma same_ignoring_case_refl x : Js.same_ignoring_case x x = true.
Proof. apply same_ignoring_case_iff. reflexivity. Qed.

(** The test of the search box, without the folding: some part of the
    token equals the search text up to the case of its letters. *)
Lemma search_test_iff tok query :
  Js.includes (Js.toLowerCase tok) (Js.toLowerCase query) = true
  <-> exists a m b, tok = a +:+ m +:+ b /\ Js.same_ignoring_case m query = true.
Proof.
  rewrite includes_iff. split.
  - intros (a' & b' & H).
    destruct (toLowerCase_split _ _ _ H) as (a & r & -> & _ & Hr).
    destruct (toLowerCase_split _ _ _ Hr) as (m & b & -> & Hm & _).
    exists a, m, b. split; [reflexivity|]. apply same_ignoring_case_iff. exact Hm.
  - intros (a & m & b & -> & Hm). apply same_ignoring_case_iff in Hm.
    exists (Js.toLowerCase a), (Js.toLowerCase b).
    rewrite !toLowerCase_app, Hm. reflexivity.
Qed.

End SearchText.

Section DisplayClaims.
Import ShopDashboard.

Lemma includes_empty s : Js.includes s "" = true.
Proof. destruct s; reflexivity. Qed.

Lemma tab_string_not_deleted t : tab_string t <> "deleted".
Proof. destruct t; discriminate. Qed.

Lemma filteredJobs_In s job :
  In job (filteredJobs s)
  <-> In job (printJobs s) /\ status job = tab_string (activeTab s).
Proof.
  unfold filteredJobs. rewrite filter_In, String.eqb_eq. reflexivity.
Qed.

Lemma filteredAndSearchedJobs_In s job :
  In job (filteredAndSearchedJobs s)
  <-> In job (printJobs s)
      /\ status job = tab_string (activeTab s)
      /\ Js.includes (Js.toLowerCase (token job))
                     (Js.toLowerCase (searchQuery s)) = true.
Proof.
  unfold filteredAndSearchedJobs. rewrite filter_In, filteredJobs_In. tauto.
Qed.

(** C10 as stated fails: with [T7] in the search box, the pending
    job of token [T42] has the status of the active tab and is not
    in the displayed list. *)
Lemma displayed_list_is_narrowed_by_search :
  ~ (forall s job,
       In job (filteredAndSearchedJobs s)
       <-> In job (printJobs s) /\ status job = tab_string (activeTab s)).
Proof.
  intros H.
  specialize (H Samples.searching (Samples.job "j1" "T42" "pending")).
  destruct H as [_ H].
  assert (Hin : In (Samples.job "j1" "T42" "pending")
                   (filteredAndSearchedJobs Samples.searching)).
  { apply H. split; [left; reflexivity|reflexivity]. }
  vm_compute in Hin. intuition discriminate.
Qed.

(** C10, amended: the displayed list contains only jobs of the
    roster whose status equals the active tab: all of them when the
    search box is empty, and otherwise, for a token and a search text
    in ASCII, exactly those whose token contains the search text up to
    the case of its letters.  The active tab is one of pending,
    completed and expired, so a job whose status is deleted is
    displayed in no tab, and a job soft-deleted by a status event stays
    in the roster and is displayed under no tab and no search. *)
Theorem deleted_jobs_are_never_displayed (s : State) (job : PrintJob) :
  (In job (filteredAndSearchedJobs s) ->
   In job (printJobs s) /\ status job = tab_string (activeTab s))
  /\ (Js.is_ascii (token job) = true ->
      Js.is_ascii (searchQuery s) = true ->
      (In job (filteredAndSearchedJobs s)
       <-> In job (printJobs s)
           /\ status job = tab_string (activeTab s)
           /\ exists a m b,
                token job = a +:+ m +:+ b
                /\ Js.same_ignoring_case m (searchQuery s) = true))
  /\ (searchQuery s = "" -> filteredAndSearchedJobs s = filteredJobs s)
  /\ In (tab_string (activeTab s)) ["pending"; "completed"; "expired"]
  /\ (status job = "deleted" -> ~ In job (filteredAndSearchedJobs s))
  /\ (forall authShopId tab query,
        In job (printJobs s) ->
        let s' := final_state (on authShopId (jobStatusUpdate (id job) "deleted") s) in
        In (with_status "deleted" job) (printJobs s')
        /\ ~ In (with_status "deleted" job)
                (filteredAndSearchedJobs
                   (with_searchQuery query (with_activeTab tab s')))).
Proof.
  split.
  { intros Hin. apply filteredAndSearchedJobs_In in Hin. tauto. }
  split.
  { intros _ _. rewrite filteredAndSearchedJobs_In, search_test_iff. reflexivity. }
  split.
  { intros Hq. unfold filteredAndSearchedJobs. rewrite Hq. cbn.
    induction (filteredJobs s) as [|j l IH]; [reflexivity|].
    cbn. rewrite includes_empty. f_equal. exact IH. }
  split; [destruct (activeTab s); cbn; tauto|].
  assert (Hdel : forall s0 j, status j = "deleted" ->
                              ~ In j (filteredAndSearchedJobs s0)).
  { intros s0 j Hst Hin. apply filteredAndSearchedJobs_In in Hin.
    destruct Hin as (_ & Htab & _). rewrite Hst in Htab.
    exact (tab_string_not_deleted _ (eq_sym Htab)). }
  split; [apply Hdel|].
  intros authShopId tab query Hin s'. split; [|apply Hdel; reflexivity].
  subst s'. rewrite on_printJobs. unfold update_by_id.
  apply in_map_iff. exists job. split; [|exact Hin].
  rewrite String.eqb_refl. reflexivity.
Qed.

Lemma deleted_jobs_are_never_displayed_witness :
  filteredAndSearchedJobs Samples.dashboard = filteredJobs Samples.dashboard
  /\ ~ In (Samples.job "j1" "T42" "deleted")
          (filteredAndSearchedJobs
             (with_printJobs [Samples.job "j1" "T42" "deleted"] Samples.dashboard))
  /\ In (Samples.job "j3" "T7" "pending")
        (filteredAndSearchedJobs (with_searchQuery "t7" Samples.dashboard)).
Proof.
  split; [|split].
  - apply (deleted_jobs_are_never_displayed Samples.dashboard
             (Samples.job "j1" "T42" "pending")).
    reflexivity.
  - apply (deleted_jobs_are_never_displayed
             (with_printJobs [Samples.job "j1" "T42" "deleted"] Samples.dashboard)
             (Samples.job "j1" "T42" "deleted")).
    reflexivity.
  - pose proof (deleted_jobs_are_never_displayed
                  (with_searchQuery "t7" Samples.dashboard)
                  (Samples.job "j3" "T7" "pending")) as (_ & H & _).
    apply (H eq_refl eq_refl).
    split; [right; right; left; reflexivity|]. split; [reflexivity|].
    exists "", "T7", "". split; reflexivity.
Defined.

End DisplayClaims.

(** ** More of the upload page *)

Section CopiesControls.
Import UploadPage UploadView.

Lemma press_copies cfg b s :
  final_state (press cfg b s)
  = with_copies (copies (final_state (press cfg b s))) s.
Proof.
  destruct s; destruct b; unfold press, decrementCopies, incrementCopies, setCopies;
    handler_unfold; cbn.
  - destruct (MIN_COPIES cfg <? _); reflexivity.
  - destruct (_ <? MAX_COPIES cfg); reflexivity.
Qed.

Lemma press_range cfg b s :
  MIN_COPIES cfg <= copies s <= MAX_COPIES cfg ->
  MIN_COPIES cfg <= copies (final_state (press cfg b s)) <= MAX_COPIES cfg.
Proof.
  destruct b; [apply decrementCopies_range | apply incrementCopies_range].
Qed.

(** X1: the two copies buttons keep the count inside the configured
    range: from a count between the minimum and the maximum, any
    series of presses on [-] and [+] ends between the minimum and the
    maximum, and changes no other part of the page state. *)
Theorem copies_buttons_stay_in_range
    (cfg : Config) (bs : list Press) (s : State) :
  MIN_COPIES cfg <= copies s <= MAX_COPIES cfg ->
  MIN_COPIES cfg <= copies (presses cfg bs s) <= MAX_COPIES cfg
  /\ presses cfg bs s = with_copies (copies (presses cfg bs s)) s.
Proof.
  revert s. induction bs as [|b bs IH]; intros s Hs.
  - split; [exact Hs|destruct s; reflexivity].
  - unfold presses in *. cbn [fold_left].
    destruct (IH (final_state (press cfg b s)) (press_range cfg b s Hs)) as [Hr Hf].
    split; [exact Hr|].
    rewrite Hf at 1. rewrite (press_copies cfg b s). destruct s; reflexivity.
Qed.

Lemma copies_buttons_stay_in_range_witness :
  1 <= UploadPage.copies
         (presses Samples.cfg [Minus; Minus; Plus; Minus; Minus] Samples.selected)
    <= 100.
Proof.
  apply (copies_buttons_stay_in_range Samples.cfg [Minus; Minus; Plus; Minus; Minus]
           Samples.selected).
  vm_compute. split; discriminate.
Defined.

(** *** Reading back a rendered count *)

Lemma digit_value_pretty_char x :
  (x < 10)%N -> Js.digit_value 10 (pretty_N_char x) = Some (Z.of_N x).
Proof.
  intros H.
  assert (Hx : (x = 0 \/ x = 1 \/ x = 2 \/ x = 3 \/ x = 4 \/ x = 5 \/ x = 6
                \/ x = 7 \/ x = 8 \/ x = 9)%N) by lia.
  repeat (destruct Hx as [->|Hx]; [reflexivity|]). subst x. reflexivity.
Qed.

Lemma is_digit_pretty_char x : JsText.is_digit (pretty_N_char x) = true.
Proof.
  unfold pretty_N_char.
  destruct x as [|p]; [reflexivity|].
  do 4 (destruct p as [p|p|]; try reflexivity).
Qed.

Lemma parse_digits_pretty_go x s :
  (0 < x)%N ->
  Js.parse_digits 10 (pretty_N_go x s) None
  = Js.parse_digits 10 s (Some (Z.of_N x)).
Proof.
  revert s. induction (N.lt_wf_0 x) as [x _ IH]. intros s Hx.
  rewrite pretty_N_go_step by exact Hx.
  assert (Hmod : (x `mod` 10 < 10)%N) by (apply N.mod_lt; discriminate).
  destruct (N.eq_dec (x `div` 10)%N 0%N) as [Hz|Hnz].
  - rewrite Hz, pretty_N_go_0. cbn [Js.parse_digits].
    rewrite (digit_value_pretty_char _ Hmod). f_equal. f_equal.
    pose proof (N.div_mod x 10%N ltac:(discriminate)) as H.
    rewrite Hz, N.mul_0_r, N.add_0_l in H. congruence.
  - rewrite IH; [|apply N.div_lt; [exact Hx|reflexivity]|apply N.neq_0_lt_0; exact Hnz].
    cbn [Js.parse_digits]. rewrite (digit_value_pretty_char _ Hmod).
    f_equal. f_equal.
    pose proof (N.div_mod x 10%N ltac:(discriminate)) as H.
    rewrite H at 3. rewrite N2Z.inj_add, N2Z.inj_mul. cbn. lia.
Qed.

Lemma skip_digits_pretty_go x s :
  JsText.skip_digits s = "" -> JsText.skip_digits (pretty_N_go x s) = "".
Proof.
  revert s. induction (N.lt_wf_0 x) as [x _ IH]. intros s Hs.
  destruct (N.eq_dec x 0%N) as [->|Hx]; [rewrite pretty_N_go_0; exact Hs|].
  rewrite pretty_N_go_step by lia.
  apply IH; [apply N.div_lt; lia|].
  cbn [JsText.skip_digits]. rewrite is_digit_pretty_char. exact Hs.
Qed.

Lemma digit_string_is_plain c s :
  JsText.is_digit c = true ->
  JsText.skip_digits s = "" ->
  Js.skip_white_space (String c s) = String c s
  /\ Js.strip_sign (String c s) = (false, String c s)
  /\ Js.strip_hex_prefix (String c s) = (10, String c s).
Proof.
  intros Hc Hs.
  destruct c as [[] [] [] [] [] [] [] []]; try discriminate Hc;
    repeat split; try reflexivity.
  destruct s as [|d r]; [reflexivity|].
  destruct d as [[] [] [] [] [] [] [] []]; try reflexivity;
    cbn in Hs; discriminate Hs.
Qed.

(** On a string of decimal digits [parseInt] is the plain reading. *)
Lemma parseInt_digits s :
  JsText.skip_digits s = "" ->
  Js.parseInt s = Js.parse_digits 10 s None.
Proof.
  intros Hs. destruct s as [|c s]; [reflexivity|].
  cbn [JsText.skip_digits] in Hs.
  destruct (JsText.is_digit c) eqn:Hc; [|discriminate].
  destruct (digit_string_is_plain c s Hc Hs) as (H1 & H2 & H3).
  unfold Js.parseInt. rewrite H1, H2, H3.
  destruct (Js.parse_digits 10 (String c s) None); reflexivity.
Qed.

Lemma parseInt_pretty_positive p :
  Js.parseInt (pretty (N.pos p)) = Some (Z.pos p)
  /\ JsText.skip_digits (pretty (N.pos p)) = "".
Proof.
  unfold pretty, pretty_N. destruct (decide (N.pos p = 0%N)); [discriminate|].
  assert (Hd : JsText.skip_digits (pretty_N_go (N.pos p) "") = "")
    by (apply skip_digits_pretty_go; reflexivity).
  split; [|exact Hd].
  rewrite (parseInt_digits _ Hd), parse_digits_pretty_go by reflexivity.
  reflexivity.
Qed.

(** X2: the decimal rendering of an integer is read back by
    [parseInt] as that integer (for integers a JavaScript number holds
    exactly); typing the rendering of a non-zero count into the copies
    input therefore stores exactly that count, and the form carries the
    text that was typed. *)
Theorem rendered_count_is_read_back (cfg : Config) (n : Z) (s : State) :
  Z.abs n <= 9007199254740991 ->
  n <> 0 ->
  Js.parseInt (Js.toString n) = Some n
  /\ copies (final_state (changeCopies cfg (Js.toString n) s)) = n
  /\ In ("copies", FormText (Js.toString n))
        (form_data (final_state (changeCopies cfg (Js.toString n) s))).
Proof.
  intros _ Hn.
  assert (Hp : Js.parseInt (Js.toString n) = Some n).
  { unfold Js.toString, pretty, pretty_Z. destruct n as [|p|p]; [congruence| |].
    - apply parseInt_pretty_positive.
    - destruct (parseInt_pretty_positive p) as [Hp Hd].
      rewrite (parseInt_digits _ Hd) in Hp.
      change (pretty (N.pos p)) with (pretty p) in *.
      destruct (pretty p) as [|c r] eqn:E; [discriminate|].
      cbn [JsText.skip_digits] in Hd.
      destruct (JsText.is_digit c) eqn:Hc; [|discriminate].
      destruct (digit_string_is_plain c r Hc Hd) as (_ & _ & H3).
      unfold Js.parseInt.
      change (Js.skip_white_space ("-" +:+ String c r))
        with (String "-" (String c r)).
      cbn [Js.strip_sign]. rewrite H3, Hp. reflexivity. }
  split; [exact Hp|].
  assert (Hc : copies (final_state (changeCopies cfg (Js.toString n) s)) = n)
    by (apply (changeCopies_nonzero cfg _ n s Hp Hn)).
  split; [exact Hc|].
  rewrite <- Hc at 1. apply form_data_copies.
Qed.

Lemma rendered_count_is_read_back_witness :
  Js.parseInt (Js.toString 12) = Some 12.
Proof.
  apply (rendered_count_is_read_back Samples.cfg 12 Samples.selected).
  - vm_compute. discriminate.
  - discriminate.
Defined.

End CopiesControls.

Section FileListFacts.
Import UploadPage UploadView.

Lemma filter_by_position_above {A} (l : list A) (k j : nat) :
  (j < k)%nat ->
  map snd (List.filter (fun p : nat * A => negb (fst p =? j)%nat)
                       (combine (seq k (length l)) l)) = l.
Proof.
  revert k. induction l as [|x l IH]; intros k Hj; [reflexivity|].
  cbn. destruct (Nat.eqb_spec k j); [lia|]. cbn. f_equal. apply IH. lia.
Qed.

Lemma filter_by_position_from {A} (l : list A) (k i : nat) :
  map snd (List.filter (fun p : nat * A => negb (fst p =? k + i)%nat)
                       (combine (seq k (length l)) l)) = remove_at i l.
Proof.
  revert k i. induction l as [|x l IH]; intros k i; [destruct i; reflexivity|].
  cbn [length seq combine List.filter fst].
  destruct i as [|i].
  - rewrite Nat.add_0_r, Nat.eqb_refl. cbn. apply filter_by_position_above. lia.
  - destruct (Nat.eqb_spec k (k + S i)); [lia|]. cbn.
    f_equal. replace (k + S i)%nat with (S k + i)%nat by lia. apply IH.
Qed.

Lemma remove_at_nth {A} (l : list A) (i j : nat) :
  nth_error (remove_at i l) j = nth_error l (if (j <? i)%nat then j else S j).
Proof.
  revert i j. induction l as [|x l IH]; intros i j.
  - assert (H : forall k, nth_error (@nil A) k = None) by (intros [|k]; reflexivity).
    destruct i; cbn [remove_at]; rewrite !H; reflexivity.
  - destruct i as [|i]; [reflexivity|].
    destruct j as [|j]; [reflexivity|].
    cbn [remove_at nth_error]. rewrite IH.
    change (S j <? S i)%nat with (j <? i)%nat.
    destruct (j <? i)%nat; reflexivity.
Qed.

Lemma remove_at_beyond {A} (l : list A) (i : nat) :
  (length l <= i)%nat -> remove_at i l = l.
Proof.
  revert i. induction l as [|x l IH]; intros i Hi; [destruct i; reflexivity|].
  destruct i as [|i]; cbn in *; [lia|]. f_equal. apply IH. lia.
Qed.

Lemma remove_at_length {A} (l : list A) (i : nat) :
  (i < length l)%nat -> S (length (remove_at i l)) = length l.
Proof.
  revert i. induction l as [|x l IH]; intros i Hi; cbn in *; [lia|].
  destruct i as [|i]; [reflexivity|]. cbn. f_equal. apply IH. lia.
Qed.

(** X3: removing a file drops exactly the file at the given position:
    the result is the list filtered by position as the source writes
    it, the files before the position stay where they are and those
    after it move up by one; a position past the end changes nothing.
    No other part of the page state is written. *)
Theorem removeFile_drops_one_position (index : nat) (s : State) :
  let s' := final_state (removeFile index s) in
  files s' = filter_by_position index (files s)
  /\ (forall j,
        nth_error (files s') j
        = nth_error (files s) (if (j <? index)%nat then j else S j))
  /\ ((index < length (files s))%nat -> S (length (files s')) = length (files s))
  /\ ((length (files s) <= index)%nat -> s' = s)
  /\ s' = with_files (files s') s.
Proof.
  intros s'. subst s'. unfold removeFile, setFiles. handler_unfold. cbn.
  split; [symmetry; apply (filter_by_position_from (files s) 0 index)|].
  split; [intros j; apply remove_at_nth|].
  split; [apply remove_at_length|].
  split; [|reflexivity].
  intros H. rewrite (remove_at_beyond _ _ H). destruct s; reflexivity.
Qed.

Lemma removeFile_drops_one_position_witness :
  final_state (removeFile 5 Samples.selected) = Samples.selected
  /\ length (files (final_state (removeFile 0 Samples.selected))) = 0%nat.
Proof.
  pose proof (removeFile_drops_one_position 5 Samples.selected) as (_ & _ & _ & H & _).
  pose proof (removeFile_drops_one_position 0 Samples.selected) as (_ & _ & H0 & _).
  split.
  - apply H. vm_compute. lia.
  - assert (Hlt : (0 < length (files Samples.selected))%nat) by (vm_compute; lia).
    specialize (H0 Hlt). change (length (files Samples.selected)) with 1%nat in H0.
    congruence.
Defined.

End FileListFacts.

Section SubmissionFacts.
Import UploadPage UploadView.

(** X4: with no file selected the submit button is disabled, and a
    submission that happens anyway is rejected on the page: no request
    is sent, the state is not written, and the only effect is the
    toast asking for a file. *)
Theorem submit_without_files_sends_nothing
    (cfg : Config) (shopId : option string)
    (net : Request -> FetchResult UploadReply) (s : State) :
  files s = [] ->
  let run := handleSubmit cfg shopId net s in
  submit_disabled s = true
  /\ requests (trace run) = []
  /\ final_state run = s
  /\ trace run = [EToastError "Please select at least one file to upload"].
Proof.
  intros Hf run. subst run. rewrite (handleSubmit_empty cfg shopId net s Hf).
  unfold submit_disabled. rewrite Hf. repeat split.
Qed.

Lemma submit_without_files_sends_nothing_witness :
  requests (trace (handleSubmit Samples.cfg (Some "shop1") Samples.upload_accepted
                     (initial Samples.cfg ∅))) = [].
Proof.
  apply (submit_without_files_sends_nothing Samples.cfg (Some "shop1")
           Samples.upload_accepted (initial Samples.cfg ∅)).
  reflexivity.
Defined.

(** X5: a 2xx answer to the upload whose body cannot be read as JSON
    is handled as a failure: the error toast shows the message of the
    parse error, no token is shown or stored, and the page stays on
    the form with the selection intact. *)
Theorem unreadable_upload_reply_is_a_failure
    (cfg : Config) (shopId : option string)
    (net : Request -> FetchResult UploadReply) (s : State)
    (r : Response UploadReply) (e : Thrown) :
  files s <> [] ->
  net (upload_request cfg shopId s) = Resolved r ->
  ok r = true ->
  json r = Throw e ->
  let run := handleSubmit cfg shopId net s in
  trace run
  = [EFetch (upload_request cfg shopId s);
     EToastError (message_or e "Upload failed. Please try again.")]
  /\ final_state run = with_isUploading false s
  /\ token (final_state run) = token s
  /\ localStorage (final_state run) = localStorage s
  /\ uploadComplete (final_state run) = uploadComplete s.
Proof.
  intros Hf Hnet Hok Hj run. subst run.
  unfold handleSubmit, setIsUploading. handler_unfold.
  destruct (files s) as [|f fs] eqn:Hfs; [congruence|].
  cbn -[upload_request]. rewrite Hnet; cbn -[upload_request].
  rewrite Hok; cbn -[upload_request]. rewrite Hj; cbn -[upload_request].
  repeat split.
Qed.

Lemma unreadable_upload_reply_is_a_failure_witness :
  trace (handleSubmit Samples.cfg (Some "shop1") MoreSamples.garbled Samples.selected)
  = [EFetch (upload_request Samples.cfg (Some "shop1") Samples.selected);
     EToastError "Unexpected token < in JSON"].
Proof.
  apply (unreadable_upload_reply_is_a_failure Samples.cfg (Some "shop1")
           MoreSamples.garbled Samples.selected MoreSamples.garbled_reply
           (ErrorObj "Unexpected token < in JSON"));
    [vm_compute; discriminate|reflexivity|reflexivity|reflexivity].
Defined.

(** The one request of a recovery, whatever the answer. *)
Lemma checkPreviousUpload_trace cfg sid net s tok :
  Js.truthy sid = true ->
  localStorage s !! ("uploadToken_" +:+ sid) = Some tok ->
  Js.truthy tok = true ->
  trace (checkPreviousUpload cfg (Some sid) net s)
  = [EFetch (status_request cfg tok)].
Proof.
  intros Hsid Hget Htok.
  destruct (net (status_request cfg tok)) as [e|r] eqn:Hnet.
  - rewrite (checkPreviousUpload_failure cfg sid net s tok); auto.
    rewrite Hnet; exact I.
  - destruct (ok r) eqn:Hok; [destruct (json r) as [job|e] eqn:Hj|].
    + rewrite (checkPreviousUpload_success cfg sid net s tok r job); auto.
    + rewrite (checkPreviousUpload_failure cfg sid net s tok); auto.
      rewrite Hnet; right; eauto.
    + rewrite (checkPreviousUpload_failure cfg sid net s tok); auto.
      rewrite Hnet; left; exact Hok.
Qed.

(** X6: the token stored by a successful submission is the one a
    later page load asks about: after the upload answered with a
    non-empty token, a fresh page over the same storage issues exactly
    the status request for that token, and a 2xx JSON answer puts the
    token and the upload-complete view back. *)
Theorem stored_token_is_recovered_on_reload
    (cfg : Config) (sid : string)
    (net : Request -> FetchResult UploadReply)
    (net' : Request -> FetchResult StatusReply)
    (s : State) (r : Response UploadReply) (data : UploadReply) :
  files s <> [] ->
  Js.truthy sid = true ->
  net (upload_request cfg (Some sid) s) = Resolved r ->
  ok r = true ->
  json r = Normal data ->
  Js.truthy (token_number data) = true ->
  let submitted := final_state (handleSubmit cfg (Some sid) net s) in
  let reload := checkPreviousUpload cfg (Some sid) net'
                  (initial cfg (localStorage submitted)) in
  trace reload = [EFetch (status_request cfg (token_number data))]
  /\ (forall r' job,
        net' (status_request cfg (token_number data)) = Resolved r' ->
        ok r' = true -> json r' = Normal job ->
        token (final_state reload) = token (submitted)
        /\ uploadComplete (final_state reload) = true).
Proof.
  intros Hf Hsid Hnet Hok Hj Htok submitted reload.
  assert (Hget : localStorage (initial cfg (localStorage submitted))
                 !! ("uploadToken_" +:+ sid) = Some (token_number data)).
  { subst submitted.
    rewrite (handleSubmit_success cfg (Some sid) net s r data Hf Hnet Hok Hj).
    cbn. apply lookup_insert_eq. }
  split.
  - apply (checkPreviousUpload_trace cfg sid net' _ _ Hsid Hget Htok).
  - intros r' job Hnet' Hok' Hj'. subst reload.
    rewrite (checkPreviousUpload_success cfg sid net' _ _ r' job Hsid Hget Htok
               Hnet' Hok' Hj').
    subst submitted.
    rewrite (handleSubmit_success cfg (Some sid) net s r data Hf Hnet Hok Hj).
    split; reflexivity.
Qed.

Lemma stored_token_is_recovered_on_reload_witness :
  let submitted := final_state (handleSubmit Samples.cfg (Some "shop1")
                                  Samples.upload_accepted Samples.selected) in
  trace (checkPreviousUpload Samples.cfg (Some "shop1") Samples.status_found
           (initial Samples.cfg (localStorage submitted)))
  = [EFetch (status_request Samples.cfg "T42")].
Proof.
  intros submitted.
  apply (stored_token_is_recovered_on_reload Samples.cfg "shop1"
           Samples.upload_accepted Samples.status_found Samples.selected
           MoreSamples.accepted_reply {| token_number := "T42" |});
    [vm_compute; discriminate|reflexivity..].
Defined.

(** X7: a failed recovery is not repeated: once the status request
    for the stored token has failed, the token is gone from storage, and
    running the recovery again sends nothing and changes nothing. *)
Theorem failed_recovery_is_not_repeated
    (cfg : Config) (sid tok : string)
    (net net' : Request -> FetchResult StatusReply) (s : State) :
  Js.truthy sid = true ->
  localStorage s !! ("uploadToken_" +:+ sid) = Some tok ->
  Js.truthy tok = true ->
  no_reply (net (status_request cfg tok)) ->
  let healed := final_state (checkPreviousUpload cfg (Some sid) net s) in
  localStorage healed !! ("uploadToken_" +:+ sid) = None
  /\ checkPreviousUpload cfg (Some sid) net' healed = (Normal tt, healed, []).
Proof.
  intros Hsid Hget Htok Hfail healed. subst healed.
  rewrite (checkPreviousUpload_failure cfg sid net s tok Hsid Hget Htok Hfail).
  assert (Hnone : localStorage
            (final_state (A:=unit)
               (Normal (), with_localStorage
                           (delete ("uploadToken_" +:+ sid) (localStorage s)) s,
                [EFetch (status_request cfg tok)]))
            !! ("uploadToken_" +:+ sid) = None)
    by (cbn; apply lookup_delete_eq).
  split; [exact Hnone|].
  apply checkPreviousUpload_nothing_stored. left. exact Hnone.
Qed.

Lemma failed_recovery_is_not_repeated_witness :
  let healed := final_state (checkPreviousUpload Samples.cfg (Some "shop1")
                               Samples.offline Samples.returning) in
  checkPreviousUpload Samples.cfg (Some "shop1") Samples.status_found healed
  = (Normal tt, healed, []).
Proof.
  intros healed.
  apply (failed_recovery_is_not_repeated Samples.cfg "shop1" "T42"
           Samples.offline Samples.status_found Samples.returning);
    [reflexivity|reflexivity|reflexivity|exact I].
Defined.

End SubmissionFacts.

Section ViewFacts.
Import UploadPage UploadView.

(** X8: [Upload Another File] on a job that is completed or deleted
    clears the page once the timer has fired: no files, the default
    print type and side, the minimum copies, no token, the form instead
    of the token card, and the stored token removed, so that a later
    page load finds nothing to recover.  The job status itself is not
    reset, and nothing is shown. *)
Theorem upload_another_clears_finished_job
    (cfg : Config) (shopId : option string) (s : State) :
  jobStatus s = "completed" \/ jobStatus s = "deleted" ->
  let run := uploadAnother cfg shopId s in
  let s' := final_state run in
  trace run = []
  /\ files s' = []
  /\ printType s' = "bw"
  /\ printSide s' = "single"
  /\ copies s' = MIN_COPIES cfg
  /\ isUploading s' = false
  /\ uploadComplete s' = false
  /\ token s' = ""
  /\ localStorage s' = delete (storage_key shopId) (localStorage s)
  /\ jobStatus s' = jobStatus s
  /\ isShopClosed s' = isShopClosed s
  /\ (forall net, checkPreviousUpload cfg shopId net s' = (Normal tt, s', [])).
Proof.
  intros Hst run s'. subst s' run.
  assert (Hrun : uploadAnother cfg shopId s
    = (Normal tt,
       with_localStorage (delete (storage_key shopId) (localStorage s))
         (with_token ""
            (with_uploadComplete false
               (with_isUploading false
                  (with_copies (MIN_COPIES cfg)
                     (with_printSide "single"
                        (with_printType "bw"
                           (with_files [] (with_uploadComplete false s)))))))),
       [])).
  { unfold uploadAnother, uploadAnotherClick, transitionOut, setFiles,
      setPrintType, setPrintSide, setCopies, setIsUploading, setUploadComplete,
      setToken, removeItem.
    handler_unfold. cbn -[storage_key].
    destruct Hst as [-> | ->]; reflexivity. }
  rewrite Hrun. repeat split.
  intros net. apply checkPreviousUpload_nothing_stored. left.
  cbn -[storage_key]. apply lookup_delete_eq.
Qed.

Lemma upload_another_clears_finished_job_witness :
  let s' := final_state (uploadAnother Samples.cfg (Some "shop1")
                           MoreSamples.finished) in
  token s' = "" /\ localStorage s' !! "uploadToken_shop1" = None.
Proof.
  pose proof (upload_another_clears_finished_job Samples.cfg (Some "shop1")
                MoreSamples.finished (or_introl eq_refl))
    as (_ & _ & _ & _ & _ & _ & _ & Htok & Hls & _).
  split; [exact Htok|]. cbn zeta. rewrite Hls. apply lookup_delete_eq.
Defined.

(** X9: on a job with any other status (pending, expired or
    anything else the server sent) the button changes nothing and shows
    nothing: the page state is unchanged, so the token card stays and
    the token stays in storage, and no timer is armed; the click ends in
    the [TypeError] of its [toast.info] call. *)
Theorem upload_another_refuses_unfinished_job
    (cfg : Config) (shopId : option string) (s : State) :
  jobStatus s <> "completed" ->
  jobStatus s <> "deleted" ->
  uploadAnother cfg shopId s
  = (Throw (ErrorObj "toast.info is not a function"), s, [])
  /\ uploadAnotherClick s
     = (Throw (ErrorObj "toast.info is not a function"), s, []).
Proof.
  intros Hc Hd.
  unfold uploadAnother, uploadAnotherClick. handler_unfold.
  cbn -[String.append].
  destruct (String.eqb_spec (jobStatus s) "completed"); [contradiction|].
  destruct (String.eqb_spec (jobStatus s) "deleted"); [contradiction|].
  split; reflexivity.
Qed.

Lemma upload_another_refuses_unfinished_job_witness :
  final_state (uploadAnother Samples.cfg (Some "shop1") MoreSamples.lapsed)
  = MoreSamples.lapsed
  /\ trace (uploadAnother Samples.cfg (Some "shop1") MoreSamples.lapsed) = [].
Proof.
  pose proof (upload_another_refuses_unfinished_job Samples.cfg (Some "shop1")
                MoreSamples.lapsed) as H.
  destruct H as [H _]; [discriminate|discriminate|].
  rewrite H. split; reflexivity.
Defined.

(** X10: when the shop stops accepting uploads the closed-shop notice
    replaces both the form and the token card, whatever the page was
    showing; the rest of the state is kept, so that when the shop opens
    again the page shows the token card if an upload was complete and
    the form otherwise. *)
Theorem closed_shop_hides_form_and_token (sid : string) (s : State) :
  Js.truthy sid = true ->
  let closed := final_state (on (Some sid) (shopStatusUpdate false) s) in
  let reopened := final_state (on (Some sid) (shopStatusUpdate true) closed) in
  view (Some sid) closed = ShopClosed
  /\ closed = with_isShopClosed true s
  /\ reopened = with_isShopClosed false s
  /\ view (Some sid) reopened
     = (if uploadComplete s then UploadSuccessful else UploadForm).
Proof.
  intros Hsid closed reopened. subst closed reopened.
  unfold view. cbn. rewrite Hsid. cbn. repeat split.
Qed.

Lemma closed_shop_hides_form_and_token_witness :
  view (Some "shop1")
    (final_state (on (Some "shop1") (shopStatusUpdate false) Samples.showing))
  = ShopClosed.
Proof.
  apply (closed_shop_hides_form_and_token "shop1" Samples.showing). reflexivity.
Defined.

Lemma fetchShopDetails_failure (Price : Type) cfg sid
    (net : Request -> FetchResult (ShopReply Price)) (p : Page Price) :
  Js.truthy sid = true ->
  no_reply (net (shop_details_request cfg sid)) ->
  fetchShopDetails Price cfg (Some sid) net p
  = (Normal tt, p,
     [EFetch (shop_details_request cfg sid);
      EToastError "Failed to fetch shop details"]).
Proof.
  intros Hsid Hfail. unfold fetchShopDetails. handler_unfold.
  cbn -[shop_details_request]. rewrite Hsid.
  destruct (net (shop_details_request cfg sid)) as [e|r];
    cbn -[shop_details_request] in *; [reflexivity|].
  destruct (ok r); cbn -[shop_details_request]; [|reflexivity].
  destruct Hfail as [Hfail|[e He]]; [discriminate|]. rewrite He. reflexivity.
Qed.

Lemma fetchShopDetails_success (Price : Type) cfg sid
    (net : Request -> FetchResult (ShopReply Price)) (p : Page Price) r shop :
  Js.truthy sid = true ->
  net (shop_details_request cfg sid) = Resolved r ->
  ok r = true ->
  json r = Normal shop ->
  fetchShopDetails Price cfg (Some sid) net p
  = (Normal tt,
     {| shopName := shop_name shop;
        bwCostPerPage := shop_bw_cost_per_page shop;
        colorCostPerPage := shop_color_cost_per_page shop;
        form := with_isShopClosed (negb (shop_isAcceptingUploads shop)) (form p) |},
     [EFetch (shop_details_request cfg sid)]).
Proof.
  intros Hsid Hnet Hok Hj.
  unfold fetchShopDetails, setShopName, setBwCostPerPage, setColorCostPerPage,
    setIsShopClosed'.
  handler_unfold. cbn -[shop_details_request]. rewrite Hsid, Hnet.
  cbn -[shop_details_request]. rewrite Hok. cbn -[shop_details_request].
  rewrite Hj. reflexivity.
Qed.

(** X11: the upload page fails closed.  With a shop id, loading the
    shop details sends one [GET] to [{shopDetailsBase}/{shopId}].  When
    it fails, the page state is unchanged and the error toast is shown,
    so a freshly loaded page keeps showing the closed-shop notice; when
    it succeeds, name and prices are taken from the answer and the shop
    is closed exactly when the answer says it does not accept
    uploads. *)
Theorem shop_details_decide_whether_the_form_opens
    (Price : Type) (cfg : Config) (sid : string)
    (net : Request -> FetchResult (ShopReply Price)) (p : Page Price) :
  Js.truthy sid = true ->
  let req := shop_details_request cfg sid in
  let run := fetchShopDetails Price cfg (Some sid) net p in
  requests (trace run) = [req]
  /\ req_url req = SHOP_DETAILS cfg +:+ "/" +:+ sid
  /\ (no_reply (net req) ->
        final_state run = p
        /\ trace run = [EFetch req; EToastError "Failed to fetch shop details"]
        /\ (isShopClosed (form p) = true ->
              view (Some sid) (form (final_state run)) = ShopClosed))
  /\ (forall r shop,
        net req = Resolved r -> ok r = true -> json r = Normal shop ->
        trace run = [EFetch req]
        /\ shopName (final_state run) = shop_name shop
        /\ bwCostPerPage (final_state run) = shop_bw_cost_per_page shop
        /\ colorCostPerPage (final_state run) = shop_color_cost_per_page shop
        /\ form (final_state run)
           = with_isShopClosed (negb (shop_isAcceptingUploads shop)) (form p)).
Proof.
  intros Hsid req run.
  assert (Hcases :
    no_reply (net req)
    \/ exists r shop, net req = Resolved r /\ ok r = true /\ json r = Normal shop).
  { destruct (net req) as [e|r] eqn:Hnet; cbn; [left; exact I|].
    destruct (ok r) eqn:Hok; [|left; left; reflexivity].
    destruct (json r) as [shop|e] eqn:Hj; [right; eauto|left; right; eauto]. }
  split; [|split; [reflexivity|split]].
  - subst run req. destruct Hcases as [Hfail|(r & shop & Hnet & Hok & Hj)].
    + rewrite (fetchShopDetails_failure Price cfg sid net p Hsid Hfail). reflexivity.
    + rewrite (fetchShopDetails_success Price cfg sid net p r shop Hsid Hnet Hok Hj).
      reflexivity.
  - intros Hfail. subst run req.
    rewrite (fetchShopDetails_failure Price cfg sid net p Hsid Hfail).
    repeat split. intros Hc. unfold view. cbn. rewrite Hsid, Hc. reflexivity.
  - intros r shop Hnet Hok Hj. subst run req.
    rewrite (fetchShopDetails_success Price cfg sid net p r shop Hsid Hnet Hok Hj).
    repeat split.
Qed.

Lemma shop_details_decide_whether_the_form_opens_witness :
  view (Some "shop1")
    (form (final_state
             (fetchShopDetails Z Samples.cfg (Some "shop1") Samples.offline
                (initial_page Z 0 Samples.cfg ∅))))
  = ShopClosed
  /\ view (Some "shop1")
       (form (final_state
                (fetchShopDetails Z Samples.cfg (Some "shop1") MoreSamples.shop_open
                   (initial_page Z 0 Samples.cfg ∅))))
     = UploadForm.
Proof.
  pose proof (shop_details_decide_whether_the_form_opens Z Samples.cfg "shop1"
                Samples.offline (initial_page Z 0 Samples.cfg ∅) eq_refl)
    as (_ & _ & Hfail & _).
  pose proof (shop_details_decide_whether_the_form_opens Z Samples.cfg "shop1"
                MoreSamples.shop_open (initial_page Z 0 Samples.cfg ∅) eq_refl)
    as (_ & _ & _ & Hok).
  split.
  - apply Hfail; [exact I|reflexivity].
  - destruct (Hok _ _ eq_refl eq_refl eq_refl) as (_ & _ & _ & _ & Hform).
    rewrite Hform. reflexivity.
Defined.

End ViewFacts.

(** ** More of the dashboard *)

Section RosterMore.
Import ShopDashboard Roster.

(** X12: deleting a job asks first and never touches the roster.
    Without confirmation nothing happens at all; with it, exactly one
    [DELETE] goes to [{jobsBase}/{jobId}], the page state is unchanged
    whatever the answer, and the toast reports success exactly when
    the request resolved with a 2xx response. *)
Theorem delete_asks_first_and_keeps_roster
    (cfg : Config) (authToken : option string)
    (net : Request -> FetchResult unit) (confirmed : bool) (jobId : string)
    (s : State) :
  let req := delete_request cfg authToken jobId in
  let run := handleDeleteJob cfg authToken net confirmed jobId s in
  final_state run = s
  /\ (confirmed = false -> trace run = [])
  /\ (confirmed = true ->
        requests (trace run) = [req]
        /\ req_method req = "DELETE"
        /\ req_url req = PRINT_JOBS cfg +:+ "/" +:+ jobId
        /\ trace run
           = if succeeded (net req)
             then [EFetch req; EToastSuccess "Job deleted successfully"]
             else [EFetch req; EConsoleError "Error deleting job:";
                   EToastError "Failed to delete job"]).
Proof.
  intros req run. subst req run. unfold handleDeleteJob. handler_unfold.
  destruct confirmed; cbn -[delete_request].
  - destruct (net (delete_request cfg authToken jobId)) as [e|r];
      cbn -[delete_request]; [|destruct (ok r); cbn -[delete_request]].
    all: repeat split; discriminate.
  - repeat split; discriminate.
Qed.

Lemma delete_asks_first_and_keeps_roster_witness :
  trace (handleDeleteJob Samples.cfg (Some "jwt") Samples.accepted false "j1"
           Samples.dashboard) = []
  /\ requests (trace (handleDeleteJob Samples.cfg (Some "jwt") Samples.offline
                        true "j1" Samples.dashboard))
     = [delete_request Samples.cfg (Some "jwt") "j1"].
Proof.
  split.
  - apply (delete_asks_first_and_keeps_roster Samples.cfg (Some "jwt")
             Samples.accepted false "j1" Samples.dashboard). reflexivity.
  - apply (delete_asks_first_and_keeps_roster Samples.cfg (Some "jwt")
             Samples.offline true "j1" Samples.dashboard). reflexivity.
Defined.

Lemma fetchJobs_failure cfg authToken authShopId net s :
  no_reply (net (jobs_request cfg authToken authShopId)) ->
  fetchJobs cfg authToken authShopId net s
  = (Normal tt, with_isLoading false (with_isLoading true s),
     [EFetch (jobs_request cfg authToken authShopId);
      EToastError "Failed to fetch print jobs"]).
Proof.
  intros Hfail. unfold fetchJobs, setIsLoading, setPrintJobs. handler_unfold.
  cbn -[jobs_request].
  destruct (net (jobs_request cfg authToken authShopId)) as [e|r];
    cbn -[jobs_request] in *; [reflexivity|].
  destruct (ok r); cbn -[jobs_request]; [|reflexivity].
  destruct Hfail as [Hfail|[e He]]; [discriminate|]. rewrite He. reflexivity.
Qed.

Lemma fetchJobs_success cfg authToken authShopId net s r data :
  net (jobs_request cfg authToken authShopId) = Resolved r ->
  ok r = true ->
  json r = Normal data ->
  fetchJobs cfg authToken authShopId net s
  = (Normal tt,
     with_isLoading false
       (with_printJobs (map formatServerJob data) (with_isLoading true s)),
     [EFetch (jobs_request cfg authToken authShopId)]).
Proof.
  intros Hnet Hok Hj. unfold fetchJobs, setIsLoading, setPrintJobs. handler_unfold.
  cbn -[jobs_request]. rewrite Hnet. cbn -[jobs_request]. rewrite Hok.
  cbn -[jobs_request]. rewrite Hj. reflexivity.
Qed.

(** X13: loading the jobs of the day sends one authenticated [GET]
    to [{jobsBase}/prints/{shopId}] and always ends with the loading
    flag off.  A failure keeps the roster and shows the error toast.  A
    success replaces the roster by the listed jobs, one per entry and
    in the order of the list, whatever the roster held before: a job
    that is not listed is gone, and an entry in the old shape gets
    exactly its one file. *)
Theorem fetchJobs_replaces_roster
    (cfg : Config) (authToken authShopId : option string)
    (net : Request -> FetchResult (list ServerJob)) (s : State) :
  let req := jobs_request cfg authToken authShopId in
  let run := fetchJobs cfg authToken authShopId net s in
  requests (trace run) = [req]
  /\ req_url req = PRINT_JOBS cfg +:+ "/prints/" +:+ Js.template authShopId
  /\ isLoading (final_state run) = false
  /\ (no_reply (net req) ->
        printJobs (final_state run) = printJobs s
        /\ trace run = [EFetch req; EToastError "Failed to fetch print jobs"])
  /\ (forall r data,
        net req = Resolved r -> ok r = true -> json r = Normal data ->
        trace run = [EFetch req]
        /\ length (printJobs (final_state run)) = length data
        /\ map id (printJobs (final_state run)) = map srv__id data
        /\ map token (printJobs (final_state run)) = map srv_token_number data
        /\ map status (printJobs (final_state run)) = map srv_status data
        /\ (forall job,
              In job (printJobs s) -> ~ In (id job) (map srv__id data) ->
              ~ In job (printJobs (final_state run)))
        /\ (forall n entry,
              nth_error data n = Some entry -> srv_files entry = None ->
              option_map files (nth_error (printJobs (final_state run)) n)
              = Some [ {| fileName := srv_fileName entry;
                          filePath := srv_file_path entry;
                          fileSize := srv_fileSize entry |} ])).
Proof.
  intros req run.
  assert (Hcases :
    no_reply (net req)
    \/ exists r data, net req = Resolved r /\ ok r = true /\ json r = Normal data).
  { destruct (net req) as [e|r] eqn:Hnet; cbn; [left; exact I|].
    destruct (ok r) eqn:Hok; [|left; left; reflexivity].
    destruct (json r) as [data|e] eqn:Hj; [right; eauto|left; right; eauto]. }
  assert (Hids : forall data, map id (map formatServerJob data) = map srv__id data)
    by (intros data; rewrite map_map; reflexivity).
  split; [|split; [reflexivity|split; [|split]]].
  - subst run req. destruct Hcases as [Hfail|(r & data & Hnet & Hok & Hj)].
    + rewrite (fetchJobs_failure _ _ _ _ _ Hfail). reflexivity.
    + rewrite (fetchJobs_success _ _ _ _ _ _ _ Hnet Hok Hj). reflexivity.
  - subst run req. destruct Hcases as [Hfail|(r & data & Hnet & Hok & Hj)].
    + rewrite (fetchJobs_failure _ _ _ _ _ Hfail). reflexivity.
    + rewrite (fetchJobs_success _ _ _ _ _ _ _ Hnet Hok Hj). reflexivity.
  - intros Hfail. subst run req.
    rewrite (fetchJobs_failure _ _ _ _ _ Hfail). split; reflexivity.
  - intros r data Hnet Hok Hj. subst run req.
    rewrite (fetchJobs_success _ _ _ _ _ _ _ Hnet Hok Hj).
    cbn [final_state trace fst snd with_isLoading with_printJobs printJobs].
    split; [reflexivity|]. split; [apply length_map|].
    split; [apply Hids|].
    split; [rewrite map_map; reflexivity|].
    split; [rewrite map_map; reflexivity|].
    split.
    + intros job _ Hout Hin. apply Hout. rewrite <- Hids.
      apply in_map. exact Hin.
    + intros n entry Hn Hfiles. rewrite nth_error_map, Hn. cbn.
      rewrite Hfiles. reflexivity.
Qed.

Lemma fetchJobs_replaces_roster_witness :
  printJobs (final_state (fetchJobs Samples.cfg (Some "jwt") (Some "shop1")
                            Samples.offline Samples.dashboard))
  = Samples.roster
  /\ map id (printJobs (final_state (fetchJobs Samples.cfg (Some "jwt") (Some "shop1")
                                       MoreSamples.jobs_listed Samples.dashboard)))
     = ["j9"].
Proof.
  pose proof (fetchJobs_replaces_roster Samples.cfg (Some "jwt") (Some "shop1")
                Samples.offline Samples.dashboard) as (_ & _ & _ & Hfail & _).
  pose proof (fetchJobs_replaces_roster Samples.cfg (Some "jwt") (Some "shop1")
                MoreSamples.jobs_listed Samples.dashboard) as (_ & _ & _ & _ & Hok).
  split.
  - apply Hfail. exact I.
  - destruct (Hok _ _ eq_refl eq_refl eq_refl) as (_ & _ & Hids & _). exact Hids.
Defined.

End RosterMore.

Section RosterEvents.
Import ShopDashboard Roster.

Lemma count_status_cons st job jobs :
  count_status st (job :: jobs)
  = ((if String.eqb (status job) st then 1 else 0) + count_status st jobs)%nat.
Proof.
  unfold count_status. cbn. destruct (String.eqb (status job) st); reflexivity.
Qed.

(** X14: the numbers on the three tabs count disjoint parts of the
    roster: together with the jobs of any other status (deleted ones,
    for instance) they add up to the size of the roster, and the number
    on a tab is the number of jobs listed when that tab is active and
    the search box is empty. *)
Theorem tab_counts_partition_roster (s : State) :
  (tab_count pending s + tab_count completed s + tab_count expired s
   + length (List.filter
               (fun job => negb (String.eqb (status job) "pending"
                                 || String.eqb (status job) "completed"
                                 || String.eqb (status job) "expired"))
               (printJobs s))
   = length (printJobs s))%nat
  /\ (forall t, tab_count t s = length (filteredJobs (with_activeTab t s)))
  /\ (forall t, searchQuery s = "" ->
        tab_count t s = length (filteredAndSearchedJobs (with_activeTab t s))).
Proof.
  split; [|split].
  - unfold tab_count. cbn [tab_string].
    induction (printJobs s) as [|job jobs IH]; [reflexivity|].
    rewrite !count_status_cons. cbn [List.filter length].
    destruct (String.eqb_spec (status job) "pending") as [E|E];
      [rewrite E; cbn; lia|].
    destruct (String.eqb_spec (status job) "completed") as [E'|E'];
      [rewrite E'; cbn; lia|].
    destruct (String.eqb_spec (status job) "expired") as [E''|E''];
      cbn; lia.
  - reflexivity.
  - intros t Hq. unfold filteredAndSearchedJobs. cbn [searchQuery with_activeTab].
    rewrite Hq. cbn [Js.toLowerCase].
    replace (List.filter _ (filteredJobs (with_activeTab t s)))
      with (filteredJobs (with_activeTab t s)); [reflexivity|].
    induction (filteredJobs (with_activeTab t s)) as [|j l IH]; [reflexivity|].
    cbn [List.filter]. rewrite includes_empty. f_equal. exact IH.
Qed.

Lemma tab_counts_partition_roster_witness :
  tab_count pending Samples.dashboard
  = length (filteredAndSearchedJobs (with_activeTab pending Samples.dashboard)).
Proof.
  apply (tab_counts_partition_roster Samples.dashboard). reflexivity.
Defined.

Lemma update_by_id_twice i st1 st2 jobs :
  update_by_id i st2 (update_by_id i st1 jobs) = update_by_id i st2 jobs.
Proof.
  unfold update_by_id. rewrite map_map. apply map_ext. intros job.
  destruct (String.eqb (id job) i) eqn:E; cbn; rewrite E; reflexivity.
Qed.

Lemma update_by_token_twice tok st1 st2 jobs :
  update_by_token tok st2 (update_by_token tok st1 jobs) = update_by_token tok st2 jobs.
Proof.
  unfold update_by_token. rewrite map_map. apply map_ext. intros job.
  destruct (String.eqb (token job) tok) eqn:E; cbn; rewrite E; reflexivity.
Qed.

(** X15: status events are last-write-wins and repeatable: of two
    status events for the same job identifier (or for the same token)
    only the later one shows in the roster, so the same event handled
    twice leaves the roster as after handling it once. *)
Theorem status_events_are_last_write_wins
    (authShopId : option string) (key st1 st2 : string) (s : State) :
  let after e1 e2 := final_state (on authShopId e2 (final_state (on authShopId e1 s))) in
  after (jobStatusUpdate key st1) (jobStatusUpdate key st2)
  = final_state (on authShopId (jobStatusUpdate key st2) s)
  /\ after (batchStatusUpdate key st1) (batchStatusUpdate key st2)
     = final_state (on authShopId (batchStatusUpdate key st2) s)
  /\ after (jobStatusUpdate key st2) (jobStatusUpdate key st2)
     = final_state (on authShopId (jobStatusUpdate key st2) s).
Proof.
  intros after. subst after. cbn beta.
  assert (H : forall e1 e2,
    printJobs (final_state (on authShopId e2 (final_state (on authShopId e1 s))))
    = printJobs (final_state (on authShopId e2 s)) ->
    final_state (on authShopId e2 (final_state (on authShopId e1 s)))
    = final_state (on authShopId e2 s)).
  { intros e1 e2 Hjobs.
    rewrite (on_frame authShopId e2 (final_state _)), Hjobs.
    rewrite (on_frame authShopId e1 s), (on_frame authShopId e2 s).
    destruct s; reflexivity. }
  split; [|split]; apply H; rewrite !on_printJobs;
    auto using update_by_id_twice, update_by_token_twice.
Qed.

Lemma update_by_id_absent i st jobs :
  ~ In i (map id jobs) -> update_by_id i st jobs = jobs.
Proof.
  induction jobs as [|job jobs IH]; intros H; [reflexivity|].
  cbn in *. destruct (String.eqb_spec (id job) i); [tauto|].
  f_equal. apply IH. tauto.
Qed.

Lemma update_by_token_absent tok st jobs :
  ~ In tok (map token jobs) -> update_by_token tok st jobs = jobs.
Proof.
  induction jobs as [|job jobs IH]; intros H; [reflexivity|].
  cbn in *. destruct (String.eqb_spec (token job) tok); [tauto|].
  f_equal. apply IH. tauto.
Qed.

(** X16: a status event for a job or a token that the roster does
    not hold leaves the page state unchanged.  For the status completed
    or deleted its success toast is shown all the same; for any other
    status nothing is shown and the handler ends in the [TypeError] of
    its [toast.info] call. *)
Theorem status_event_for_unknown_job_changes_nothing
    (authShopId : option string) (key st : string) (s : State) :
  (~ In key (map id (printJobs s)) ->
     on authShopId (jobStatusUpdate key st) s
     = if String.eqb st "completed"
       then (Normal tt, s, [EToastSuccess "Job marked as completed"])
       else if String.eqb st "deleted"
       then (Normal tt, s, [EToastSuccess "Job deleted successfully"])
       else (Throw (ErrorObj "toast.info is not a function"), s, []))
  /\ (~ In key (map token (printJobs s)) ->
        on authShopId (batchStatusUpdate key st) s
        = if String.eqb st "completed"
          then (Normal tt, s, [EToastSuccess "Jobs marked as completed"])
          else if String.eqb st "deleted"
          then (Normal tt, s, [EToastSuccess "Jobs deleted successfully"])
          else (Throw (ErrorObj "toast.info is not a function"), s, [])).
Proof.
  assert (Hs : forall jobs, jobs = printJobs s -> with_printJobs jobs s = s)
    by (intros jobs ->; destruct s; reflexivity).
  split; intros H.
  - unfold on, setPrintJobs. handler_unfold. cbn.
    rewrite (Hs _ (update_by_id_absent _ _ _ H)).
    destruct (String.eqb st "completed"); [|destruct (String.eqb st "deleted")];
      reflexivity.
  - unfold on, setPrintJobs. handler_unfold. cbn.
    rewrite (Hs _ (update_by_token_absent _ _ _ H)).
    destruct (String.eqb st "completed"); [|destruct (String.eqb st "deleted")];
      reflexivity.
Qed.

Lemma status_event_for_unknown_job_changes_nothing_witness :
  on (Some "shop1") (jobStatusUpdate "j8" "completed") Samples.dashboard
  = (Normal tt, Samples.dashboard, [EToastSuccess "Job marked as completed"])
  /\ on (Some "shop1") (batchStatusUpdate "T8" "printing") Samples.dashboard
     = (Throw (ErrorObj "toast.info is not a function"), Samples.dashboard, []).
Proof.
  pose proof (status_event_for_unknown_job_changes_nothing (Some "shop1") "j8"
                "completed" Samples.dashboard) as [H _].
  pose proof (status_event_for_unknown_job_changes_nothing (Some "shop1") "T8"
                "printing" Samples.dashboard) as [_ H'].
  split.
  - apply H. vm_compute. intuition discriminate.
  - apply H'. vm_compute. intuition discriminate.
Defined.

(** X17: a job announced twice is listed once: after a new-job event
    has been handled, handling an event for the same identifier again,
    at whatever time, leaves the page state as it is, although the
    toast is shown again. *)
Theorem repeated_announcement_is_listed_once
    (authShopId : option string) (now now' : Z) (newJob : NewJob) (s : State) :
  let s1 := final_state (on authShopId (newBatchPrintJob now newJob) s) in
  let again := on authShopId (newBatchPrintJob now' newJob) s1 in
  final_state again = s1
  /\ In (id (formatJob now newJob)) (map id (printJobs s1))
  /\ length (trace again) = 1%nat.
Proof.
  intros s1 again.
  assert (Hin : In (id (formatJob now newJob)) (map id (printJobs s1))).
  { subst s1. rewrite on_printJobs.
    destruct (in_dec String.string_dec (id (formatJob now newJob))
                (map id (printJobs s))) as [Hin|Hout].
    - rewrite insert_job_present; assumption.
    - rewrite insert_job_fresh by assumption. left. reflexivity. }
  split; [|split; [exact Hin|reflexivity]].
  subst again. rewrite on_frame, on_printJobs.
  rewrite insert_job_present by exact Hin. destruct s1; reflexivity.
Qed.

(** X18: a job announced without a status is a pending job: when the
    payload carries an identifier and a token, the identifier is new,
    the pending tab is active and the search box is empty, the job
    appears at the top of the displayed list, with its three action
    buttons. *)
Theorem announced_job_shows_in_pending_tab
    (authShopId : option string) (now : Z) (newJob : NewJob) (s : State) :
  id (formatJob now newJob) <> "" ->
  token (formatJob now newJob) <> "" ->
  new_status newJob = "" ->
  ~ In (id (formatJob now newJob)) (map id (printJobs s)) ->
  activeTab s = pending ->
  searchQuery s = "" ->
  let s' := final_state (on authShopId (newBatchPrintJob now newJob) s) in
  filteredAndSearchedJobs s' = formatJob now newJob :: filteredAndSearchedJobs s
  /\ status (formatJob now newJob) = "pending"
  /\ actions_shown (formatJob now newJob) = true.
Proof.
  intros _ _ Hst Hnew Htab Hq s'.
  assert (Hstatus : status (formatJob now newJob) = "pending")
    by (cbn; rewrite Hst; reflexivity).
  split; [|split; [exact Hstatus|unfold actions_shown; rewrite Hstatus; reflexivity]].
  subst s'. unfold filteredAndSearchedJobs, filteredJobs.
  rewrite on_printJobs, (insert_job_fresh _ _ Hnew).
  rewrite (on_frame authShopId _ s). cbn [activeTab searchQuery with_printJobs].
  rewrite Htab, Hq. cbn [List.filter tab_string Js.toLowerCase].
  rewrite Hstatus. cbn [String.eqb Ascii.eqb Bool.eqb List.filter].
  rewrite includes_empty. reflexivity.
Qed.

Lemma announced_job_shows_in_pending_tab_witness :
  map id (filteredAndSearchedJobs
            (final_state (on (Some "shop1")
                            (newBatchPrintJob 1700000000000 (Samples.announced "j4" "T9"))
                            Samples.dashboard)))
  = ["j4"; "j1"; "j2"; "j3"].
Proof.
  pose proof (announced_job_shows_in_pending_tab (Some "shop1") 1700000000000
                (Samples.announced "j4" "T9") Samples.dashboard) as H.
  destruct H as [H _]; [discriminate|discriminate|reflexivity
                       |vm_compute; intuition discriminate
                       |reflexivity|reflexivity|].
  rewrite H. reflexivity.
Defined.

(** X19: the action buttons appear in the pending tab only: a
    displayed job has its buttons exactly when the active tab is the
    pending one, so completed and expired jobs can be neither marked,
    deleted nor downloaded from the list. *)
Theorem actions_are_offered_in_pending_tab_only (s : State) (job : PrintJob) :
  In job (filteredAndSearchedJobs s) ->
  (actions_shown job = true <-> activeTab s = pending).
Proof.
  intros Hin. apply filteredAndSearchedJobs_In in Hin.
  destruct Hin as (_ & Hst & _). unfold actions_shown. rewrite Hst.
  destruct (activeTab s); cbn; split; intros H; try reflexivity; discriminate.
Qed.

Lemma actions_are_offered_in_pending_tab_only_witness :
  actions_shown (Samples.job "j1" "T42" "pending") = true.
Proof.
  apply (actions_are_offered_in_pending_tab_only Samples.dashboard
           (Samples.job "j1" "T42" "pending")).
  - left. reflexivity.
  - reflexivity.
Defined.

End RosterEvents.

Section SearchFacts.
Import ShopDashboard.

(** X20: on ASCII text the search box is a substring search on
    tokens that ignores the case of letters.  With an ASCII search text
    and ASCII tokens in the roster, a job is displayed exactly when it
    is in the roster, has the status of the active tab, and some part of
    its token equals the search text up to the case of its letters.
    Hence every job of the tab whose token contains the text as typed
    is displayed, and an ASCII search text that differs from the
    current one only in the case of letters displays the same list. *)
Theorem search_is_case_insensitive_substring (s : State) (job : PrintJob) :
  Js.is_ascii (searchQuery s) = true ->
  forallb (fun j => Js.is_ascii (token j)) (printJobs s) = true ->
  (In job (filteredAndSearchedJobs s)
   <-> In job (printJobs s)
       /\ status job = tab_string (activeTab s)
       /\ exists a m b,
            token job = a +:+ m +:+ b
            /\ Js.same_ignoring_case m (searchQuery s) = true)
  /\ (In job (printJobs s) ->
      status job = tab_string (activeTab s) ->
      (exists a b, token job = a +:+ searchQuery s +:+ b) ->
      In job (filteredAndSearchedJobs s))
  /\ (forall query,
        Js.is_ascii query = true ->
        Js.same_ignoring_case query (searchQuery s) = true ->
        filteredAndSearchedJobs (with_searchQuery query s)
        = filteredAndSearchedJobs s).
Proof.
  intros _ _.
  assert (H1 : In job (filteredAndSearchedJobs s)
   <-> In job (printJobs s)
       /\ status job = tab_string (activeTab s)
       /\ exists a m b,
            token job = a +:+ m +:+ b
            /\ Js.same_ignoring_case m (searchQuery s) = true).
  { rewrite filteredAndSearchedJobs_In, search_test_iff. reflexivity. }
  split; [exact H1|]. split.
  - intros Hin Hst (a & b & Htok). apply H1. repeat split; try assumption.
    exists a, (searchQuery s), b. split; [exact Htok|].
    apply same_ignoring_case_refl.
  - intros query _ Hq. apply same_ignoring_case_iff in Hq.
    unfold filteredAndSearchedJobs. cbn [searchQuery with_searchQuery].
    rewrite Hq. reflexivity.
Qed.

Lemma search_is_case_insensitive_substring_witness :
  filteredAndSearchedJobs (with_searchQuery "t7" Samples.dashboard)
  = filteredAndSearchedJobs Samples.searching
  /\ In (Samples.job "j3" "T7" "pending") (filteredAndSearchedJobs Samples.searching).
Proof.
  pose proof (search_is_case_insensitive_substring Samples.searching
                (Samples.job "j3" "T7" "pending") eq_refl eq_refl)
    as (_ & Hin & Hcase).
  split.
  - apply (Hcase "t7"); reflexivity.
  - apply Hin.
    + right. right. left. reflexivity.
    + reflexivity.
    + exists "", "". reflexivity.
Defined.

End SearchFacts.

(** ** Text functions *)

Section TextFacts.
Import JsText.

Lemma match_filename_unfold s :
  match_filename s
  = match (if String.prefix filename_marker s then
             match capture_to_last_quote (drop (String.length filename_marker) s) with
             | Some p => if Js.truthy p then Some p else None
             | None => None
             end
           else None) with
    | Some p => Some p
    | None => match s with
              | String _ s' => match_filename s'
              | EmptyString => None
              end
    end.
Proof. destruct s; reflexivity. Qed.

Lemma match_filename_without_marker s :
  Js.includes s filename_marker = false -> match_filename s = None.
Proof.
  induction s as [|c s IH]; intros H; rewrite includes_unfold in H;
    rewrite match_filename_unfold;
    destruct (String.prefix filename_marker _); try discriminate; auto.
Qed.

Lemma marker_prefix_needs_f c s :
  c <> "f"%char -> String.prefix filename_marker (String c s) = false.
Proof.
  intros Hc.
  change filename_marker
    with (String "f" ("ilename=" +:+ String double_quote "")).
  cbn [String.prefix]. destruct (ascii_dec "f" c); [congruence|reflexivity].
Qed.

Lemma match_filename_skip pre rest :
  Js.includes pre "f" = false ->
  match_filename (pre +:+ rest) = match_filename rest.
Proof.
  induction pre as [|c pre IH]; intros H; [reflexivity|].
  rewrite includes_unfold in H. cbn [String.prefix] in H.
  destruct (ascii_dec "f" c) as [<-|Hne]; [destruct pre; discriminate H|].
  rewrite append_cons, match_filename_unfold.
  rewrite marker_prefix_needs_f by congruence. apply IH. exact H.
Qed.

Lemma capture_to_last_quote_closed name :
  forallb (fun c => negb (is_line_terminator c)) (list_ascii_of_string name) = true ->
  capture_to_last_quote (name +:+ String double_quote "") = Some name.
Proof.
  induction name as [|c name IH]; intros H; [reflexivity|].
  cbn [list_ascii_of_string forallb] in H. apply andb_true_iff in H.
  destruct H as [Hc Hn]. rewrite append_cons. cbn [capture_to_last_quote].
  destruct (is_line_terminator c); [discriminate|]. rewrite (IH Hn). reflexivity.
Qed.

Lemma hex_digit_unreserved n : (n < 16)%nat -> is_unreserved (hex_digit n) = true.
Proof.
  intros H. do 16 (destruct n as [|n]; [reflexivity|]). lia.
Qed.

Lemma percent_encode_chars a :
  forallb (fun c => is_unreserved c || Ascii.eqb c "%")
          (list_ascii_of_string (percent_encode a)) = true.
Proof.
  unfold percent_encode. cbn [list_ascii_of_string forallb].
  assert (Hn : (nat_of_ascii a < 256)%nat) by apply nat_ascii_bounded.
  rewrite !hex_digit_unreserved.
  - reflexivity.
  - apply Nat.mod_upper_bound. discriminate.
  - apply Nat.Div0.div_lt_upper_bound. exact Hn.
Qed.

Lemma list_ascii_of_string_app a b :
  list_ascii_of_string (a +:+ b) = list_ascii_of_string a ++ list_ascii_of_string b.
Proof.
  induction a as [|c a IH]; [reflexivity|].
  rewrite append_cons. cbn [list_ascii_of_string]. rewrite IH. reflexivity.
Qed.

(** X21: [encodeURIComponent] leaves only unreserved characters and
    percent signs, so the path put after [?path=] in the download
    address cannot add a parameter, a fragment or a path segment: the
    encoded text holds no [&], [=], [?], [#], [/], [+] or space. *)
Theorem encoded_path_has_no_delimiters (filePath : string) :
  forallb (fun c => is_unreserved c || Ascii.eqb c "%")
          (list_ascii_of_string (encodeURIComponent filePath)) = true
  /\ forallb
       (fun c => negb (existsb (Ascii.eqb c) ["&"; "="; "?"; "#"; "/"; "+"; " "]%char))
       (list_ascii_of_string (encodeURIComponent filePath)) = true.
Proof.
  assert (H : forallb (fun c => is_unreserved c || Ascii.eqb c "%")
                (list_ascii_of_string (encodeURIComponent filePath)) = true).
  { induction filePath as [|a s IH]; [reflexivity|].
    cbn [encodeURIComponent]. rewrite list_ascii_of_string_app, forallb_app, IH.
    rewrite andb_true_r. destruct (is_unreserved a) eqn:Ha.
    - cbn. rewrite Ha. reflexivity.
    - apply percent_encode_chars. }
  split; [exact H|].
  rewrite forallb_forall in *. intros c Hc. specialize (H c Hc).
  destruct c as [[] [] [] [] [] [] [] []]; try reflexivity; discriminate H.
Qed.

End TextFacts.

(** ** Downloads *)

Section DownloadFacts.
Import ShopDashboard Downloads.

(** X22: a batch is saved under [printjob-{token}] whenever the
    response names no file: the [Content-Disposition] header is absent,
    empty, or does not contain [filename=] followed by a double
    quote. *)
Theorem batch_name_falls_back_to_token (token : string) (header : option string) :
  header = None
  \/ header = Some ""
  \/ (exists h, header = Some h /\ Js.includes h JsText.filename_marker = false) ->
  download_filename token header = "printjob-" +:+ token.
Proof.
  intros [-> | [-> | (h & -> & Hh)]]; try reflexivity.
  unfold download_filename. rewrite (match_filename_without_marker h Hh).
  destruct (Js.truthy h); reflexivity.
Qed.

Lemma batch_name_falls_back_to_token_witness :
  download_filename "T42" (Some "attachment") = "printjob-T42".
Proof.
  apply (batch_name_falls_back_to_token "T42" (Some "attachment")).
  right. right. exists "attachment". split; reflexivity.
Defined.

(** X23: a quoted file name sent by the server is the name the batch
    is saved under: for a header that ends with [filename=], the name
    in double quotes, with no [f] before it and no line break in the
    name, the saved name is that name, whatever the token. *)
Theorem batch_name_is_the_quoted_name (token before name : string) :
  Js.includes before "f" = false ->
  name <> "" ->
  forallb (fun c => negb (JsText.is_line_terminator c))
          (list_ascii_of_string name) = true ->
  download_filename token
    (Some (before +:+ JsText.filename_marker +:+ name
           +:+ String JsText.double_quote ""))
  = name.
Proof.
  intros Hb Hn Hline. unfold download_filename.
  assert (Hm : JsText.match_filename
                 (before +:+ JsText.filename_marker +:+ name
                  +:+ String JsText.double_quote "") = Some name).
  { rewrite (match_filename_skip _ _ Hb), match_filename_unfold.
    replace (String.prefix JsText.filename_marker
               (JsText.filename_marker +:+ name +:+ String JsText.double_quote ""))
      with true by (symmetry; apply prefix_iff; eauto).
    change (JsText.drop (String.length JsText.filename_marker)
              (JsText.filename_marker +:+ name +:+ String JsText.double_quote ""))
      with (name +:+ String JsText.double_quote "").
    rewrite (capture_to_last_quote_closed name Hline).
    apply truthy_nonempty in Hn. rewrite Hn. reflexivity. }
  rewrite Hm.
  replace (Js.truthy (before +:+ JsText.filename_marker +:+ name
                      +:+ String JsText.double_quote "")) with true;
    [reflexivity|].
  destruct before; reflexivity.
Qed.

Lemma batch_name_is_the_quoted_name_witness :
  download_filename "T42" (Some MoreSamples.attachment_header) = "prints-T42.zip".
Proof.
  apply (batch_name_is_the_quoted_name "T42" "attachment; " "prints-T42.zip");
    [reflexivity|discriminate|reflexivity].
Defined.

Lemma handleDownloadFiles_unknown batchBase authToken net jobId b :
  List.find (fun job => String.eqb (id job) jobId) (printJobs (page b)) = None ->
  handleDownloadFiles batchBase authToken net jobId b
  = (Normal tt,
     {| page := page b; saved := saved b; progress := Some (Error, "Job not found") |},
     []).
Proof.
  intros Hfind. unfold handleDownloadFiles, set_progress. handler_unfold.
  cbn. rewrite Hfind. reflexivity.
Qed.

Lemma handleDownloadFiles_saved batchBase authToken net jobId b job r content :
  List.find (fun job => String.eqb (id job) jobId) (printJobs (page b)) = Some job ->
  net (batch_request batchBase authToken (token job)) = BlobResolved r ->
  blob_ok r = true ->
  blob r = Normal content ->
  handleDownloadFiles batchBase authToken net jobId b
  = (Normal tt,
     {| page := page b;
        saved := saved b
                 ++ [ {| saved_name :=
                           download_filename (token job) (content_disposition r);
                         saved_content := content |} ];
        progress := Some (Success, "Download complete") |},
     [EFetch (batch_request batchBase authToken (token job))]).
Proof.
  intros Hfind Hnet Hok Hblob.
  unfold handleDownloadFiles, set_progress, save, fetch_blob. handler_unfold.
  cbn -[batch_request download_filename]. rewrite Hfind.
  cbn -[batch_request download_filename]. rewrite Hnet.
  cbn -[batch_request download_filename]. rewrite Hok.
  cbn -[batch_request download_filename]. rewrite Hblob. reflexivity.
Qed.

Lemma handleDownloadFiles_failed batchBase authToken net jobId b job :
  List.find (fun job => String.eqb (id job) jobId) (printJobs (page b)) = Some job ->
  blob_failed (net (batch_request batchBase authToken (token job))) ->
  exists msg,
    handleDownloadFiles batchBase authToken net jobId b
    = (Normal tt,
       {| page := page b; saved := saved b;
          progress := Some (Error, "Download failed: " +:+ msg) |},
       [EFetch (batch_request batchBase authToken (token job));
        EConsoleError "Error downloading files:"]).
Proof.
  intros Hfind Hfail.
  unfold handleDownloadFiles, set_progress, save, fetch_blob. handler_unfold.
  cbn -[batch_request download_filename]. rewrite Hfind.
  cbn -[batch_request download_filename].
  destruct (net (batch_request batchBase authToken (token job))) as [e|r];
    cbn -[batch_request download_filename] in *.
  - eexists. reflexivity.
  - destruct (blob_ok r); cbn -[batch_request download_filename].
    + destruct Hfail as [Hfail|[e He]]; [discriminate|]. rewrite He.
      eexists. reflexivity.
    + eexists. reflexivity.
Qed.

(** X24: a batch download always resolves its spinner and never
    touches the roster.  For an identifier that is not in the roster
    nothing is requested or saved and the toast reads [Job not found].
    Otherwise one authenticated [GET] goes to
    [{batchDownloadBase}/{token}] for the token of the first job with
    that identifier; a readable 2xx answer saves exactly one file, under
    the name derived from the header and the token, and anything else
    saves nothing and turns the toast into the failure message. *)
Theorem batch_download_resolves_its_toast
    (batchBase : string) (authToken : option string)
    (net : Request -> BlobResult) (jobId : string) (b : Browser) :
  let run := handleDownloadFiles batchBase authToken net jobId b in
  let found := List.find (fun job => String.eqb (id job) jobId) (printJobs (page b)) in
  page (final_state run) = page b
  /\ (exists kind msg,
        progress (final_state run) = Some (kind, msg) /\ kind <> Loading)
  /\ (found = None ->
        trace run = []
        /\ saved (final_state run) = saved b
        /\ progress (final_state run) = Some (Error, "Job not found"))
  /\ (forall job, found = Some job ->
        let req := batch_request batchBase authToken (token job) in
        requests (trace run) = [req]
        /\ req_url req = batchBase +:+ "/" +:+ token job
        /\ (forall r content,
              net req = BlobResolved r -> blob_ok r = true ->
              blob r = Normal content ->
              saved (final_state run)
              = saved b
                ++ [ {| saved_name :=
                          download_filename (token job) (content_disposition r);
                        saved_content := content |} ]
              /\ progress (final_state run) = Some (Success, "Download complete"))
        /\ (blob_failed (net req) ->
              saved (final_state run) = saved b
              /\ exists msg,
                   progress (final_state run)
                   = Some (Error, "Download failed: " +:+ msg))).
Proof.
  intros run found.
  assert (Hcases : forall job, found = Some job ->
    blob_failed (net (batch_request batchBase authToken (token job)))
    \/ exists r content,
         net (batch_request batchBase authToken (token job)) = BlobResolved r
         /\ blob_ok r = true /\ blob r = Normal content).
  { intros job _.
    destruct (net (batch_request batchBase authToken (token job))) as [e|r];
      cbn; [left; exact I|].
    destruct (blob_ok r) eqn:Hok; [|left; left; reflexivity].
    destruct (blob r) as [content|e] eqn:Hb; [right; eauto|left; right; eauto]. }
  subst run. destruct found as [job|] eqn:Hfind; subst found.
  - specialize (Hcases job eq_refl).
    assert (Hpage : page (final_state (handleDownloadFiles batchBase authToken net jobId b))
                    = page b
                    /\ (exists kind msg,
                          progress (final_state
                                      (handleDownloadFiles batchBase authToken net jobId b))
                          = Some (kind, msg) /\ kind <> Loading)
                    /\ requests (trace (handleDownloadFiles batchBase authToken net jobId b))
                       = [batch_request batchBase authToken (token job)]).
    { destruct Hcases as [Hfail|(r & content & Hnet & Hok & Hb)].
      - destruct (handleDownloadFiles_failed _ authToken net jobId b job Hfind Hfail)
          as [msg ->].
        split; [reflexivity|]. split; [|reflexivity].
        eexists _, _. split; [reflexivity|discriminate].
      - rewrite (handleDownloadFiles_saved _ authToken net jobId b job r content
                   Hfind Hnet Hok Hb).
        split; [reflexivity|]. split; [|reflexivity].
        eexists _, _. split; [reflexivity|discriminate]. }
    destruct Hpage as (Hp & Hprog & Hreq).
    split; [exact Hp|]. split; [exact Hprog|]. split; [discriminate|].
    intros job' [= <-] req. subst req.
    split; [exact Hreq|]. split; [reflexivity|]. split.
    + intros r content Hnet Hok Hb.
      rewrite (handleDownloadFiles_saved _ authToken net jobId b job r content
                 Hfind Hnet Hok Hb).
      split; reflexivity.
    + intros Hfail.
      destruct (handleDownloadFiles_failed _ authToken net jobId b job Hfind Hfail)
        as [msg ->].
      split; [reflexivity|]. exists msg. reflexivity.
  - rewrite (handleDownloadFiles_unknown _ authToken net jobId b Hfind).
    split; [reflexivity|]. split.
    + eexists _, _. split; [reflexivity|discriminate].
    + split; [intros _; repeat split|discriminate].
Qed.

Lemma batch_download_resolves_its_toast_witness :
  saved (final_state (handleDownloadFiles "/api/batch" (Some "jwt")
                        MoreSamples.zip_served "j1" MoreSamples.browser))
  = [ {| saved_name := "prints-T42.zip"; saved_content := "PK..." |} ]
  /\ trace (handleDownloadFiles "/api/batch" (Some "jwt") MoreSamples.zip_served
              "j8" MoreSamples.browser) = [].
Proof.
  pose proof (batch_download_resolves_its_toast "/api/batch" (Some "jwt")
                MoreSamples.zip_served "j1" MoreSamples.browser)
    as (_ & _ & _ & Hfound).
  pose proof (batch_download_resolves_its_toast "/api/batch" (Some "jwt")
                MoreSamples.zip_served "j8" MoreSamples.browser)
    as (_ & _ & Hnone & _).
  split.
  - destruct (Hfound (Samples.job "j1" "T42" "pending") eq_refl)
      as (_ & _ & Hsaved & _).
    destruct (Hsaved _ _ eq_refl eq_refl eq_refl) as [H _]. exact H.
  - apply Hnone. reflexivity.
Defined.

Lemma handleDownloadFile_failed fileBase authToken net filePath fileName b :
  Js.truthy filePath = true ->
  blob_failed (net (file_request fileBase authToken filePath)) ->
  exists msg,
    handleDownloadFile fileBase authToken net filePath fileName b
    = (Normal tt, b,
       [EFetch (file_request fileBase authToken filePath);
        EToastError ("Download failed: " +:+ msg)]).
Proof.
  intros Hpath Hfail.
  unfold handleDownloadFile, save, fetch_blob. handler_unfold.
  rewrite Hpath. cbn -[file_request].
  destruct (net (file_request fileBase authToken filePath)) as [e|r];
    cbn -[file_request] in *.
  - eexists. reflexivity.
  - destruct (blob_ok r); cbn -[file_request].
    + destruct Hfail as [Hfail|[e He]]; [discriminate|]. rewrite He.
      eexists. reflexivity.
    + eexists. reflexivity.
Qed.

(** X25: a single file is downloaded only when it has a path.  With
    an empty path nothing is requested and the toast says the file is
    not available.  Otherwise one authenticated [GET] goes to
    [{downloadBase}?path=] followed by the encoded path; a readable 2xx
    answer saves exactly one file under the given name and body, and a
    failure saves nothing and shows the failure toast.  The roster is
    never touched. *)
Theorem file_download_needs_a_path
    (fileBase : string) (authToken : option string)
    (net : Request -> BlobResult) (filePath fileName : string) (b : Browser) :
  let run := handleDownloadFile fileBase authToken net filePath fileName b in
  let req := file_request fileBase authToken filePath in
  page (final_state run) = page b
  /\ (filePath = "" ->
        run = (Normal tt, b, [EToastError "File is not available for download"]))
  /\ (filePath <> "" ->
        requests (trace run) = [req]
        /\ req_url req
           = fileBase +:+ "?path=" +:+ JsText.encodeURIComponent filePath
        /\ req_headers req = [("Authorization", "Bearer " +:+ Js.template authToken)]
        /\ (forall r content,
              net req = BlobResolved r -> blob_ok r = true ->
              blob r = Normal content ->
              saved (final_state run)
              = saved b ++ [ {| saved_name := fileName; saved_content := content |} ]
              /\ List.filter is_toast_error (trace run) = [])
        /\ (blob_failed (net req) ->
              final_state run = b
              /\ exists msg,
                   trace run = [EFetch req; EToastError ("Download failed: " +:+ msg)])).
Proof.
  intros run req. subst run req.
  destruct (String.eqb_spec filePath "") as [->|Hne].
  - split; [reflexivity|]. split; [reflexivity|]. intros H. congruence.
  - assert (Hpath : Js.truthy filePath = true) by (apply truthy_nonempty; exact Hne).
    assert (Hsaved : forall r content,
      net (file_request fileBase authToken filePath) = BlobResolved r ->
      blob_ok r = true -> blob r = Normal content ->
      handleDownloadFile fileBase authToken net filePath fileName b
      = (Normal tt,
         {| page := page b;
            saved := saved b ++ [ {| saved_name := fileName; saved_content := content |} ];
            progress := progress b |},
         EFetch (file_request fileBase authToken filePath)
         :: (if Js.truthy fileName then [EToastSuccess ("Downloaded: " +:+ fileName)]
             else []))).
    { intros r content Hnet Hok Hb.
      unfold handleDownloadFile, save, fetch_blob. handler_unfold.
      rewrite Hpath. cbn -[file_request]. rewrite Hnet. cbn -[file_request].
      rewrite Hok. cbn -[file_request]. rewrite Hb. cbn -[file_request].
      destruct (Js.truthy fileName); reflexivity. }
    assert (Hcases :
      blob_failed (net (file_request fileBase authToken filePath))
      \/ exists r content,
           net (file_request fileBase authToken filePath) = BlobResolved r
           /\ blob_ok r = true /\ blob r = Normal content).
    { destruct (net (file_request fileBase authToken filePath)) as [e|r];
        cbn; [left; exact I|].
      destruct (blob_ok r) eqn:Hok; [|left; left; reflexivity].
      destruct (blob r) as [content|e] eqn:Hb; [right; eauto|left; right; eauto]. }
    split; [|split; [intros H; contradiction|intros _; split; [|split; [|split; [|split]]]]].
    + destruct Hcases as [Hfail|(r & content & Hnet & Hok & Hb)].
      * destruct (handleDownloadFile_failed _ authToken net filePath fileName b
                    Hpath Hfail) as [msg ->]. reflexivity.
      * rewrite (Hsaved r content Hnet Hok Hb). reflexivity.
    + destruct Hcases as [Hfail|(r & content & Hnet & Hok & Hb)].
      * destruct (handleDownloadFile_failed _ authToken net filePath fileName b
                    Hpath Hfail) as [msg ->]. reflexivity.
      * rewrite (Hsaved r content Hnet Hok Hb).
        destruct (Js.truthy fileName); reflexivity.
    + reflexivity.
    + reflexivity.
    + intros r content Hnet Hok Hb. rewrite (Hsaved r content Hnet Hok Hb).
      split; [reflexivity|]. destruct (Js.truthy fileName); reflexivity.
    + intros Hfail.
      destruct (handleDownloadFile_failed _ authToken net filePath fileName b
                  Hpath Hfail) as [msg ->].
      split; [reflexivity|]. exists msg. reflexivity.
Qed.

Lemma file_download_needs_a_path_witness :
  handleDownloadFile "/api/download" (Some "jwt") MoreSamples.zip_served ""
    "report.pdf" MoreSamples.browser
  = (Normal tt, MoreSamples.browser,
     [EToastError "File is not available for download"])
  /\ requests (trace (handleDownloadFile "/api/download" (Some "jwt")
                        MoreSamples.blob_offline "uploads/a b.pdf" "a b.pdf"
                        MoreSamples.browser))
     = [file_request "/api/download" (Some "jwt") "uploads/a b.pdf"].
Proof.
  pose proof (file_download_needs_a_path "/api/download" (Some "jwt")
                MoreSamples.zip_served "" "report.pdf" MoreSamples.browser)
    as (_ & Hempty & _).
  pose proof (file_download_needs_a_path "/api/download" (Some "jwt")
                MoreSamples.blob_offline "uploads/a b.pdf" "a b.pdf"
                MoreSamples.browser) as (_ & _ & Hpath).
  split; [apply Hempty; reflexivity|].
  apply Hpath. discriminate.
Defined.

End DownloadFacts.

Section FileNameFacts.
Import JsText Roster.

Lemma split_path_nonempty s : split_path s <> [].
Proof.
  destruct s as [|c s]; cbn; [discriminate|].
  destruct (is_separator c); [discriminate|].
  destruct (split_path s); discriminate.
Qed.

Lemma split_path_at_separator a c x :
  is_separator c = true ->
  split_path (a +:+ String c x) = split_path a ++ split_path x.
Proof.
  intros Hc. induction a as [|d a IH].
  - rewrite append_nil. cbn [split_path]. rewrite Hc. reflexivity.
  - rewrite append_cons. cbn [split_path]. rewrite IH.
    destruct (is_separator d); [reflexivity|].
    pose proof (split_path_nonempty a) as Ha.
    destruct (split_path a) as [|seg rest]; [congruence|reflexivity].
Qed.

Lemma pop_app l1 l2 : l2 <> [] -> pop (l1 ++ l2) = pop l2.
Proof.
  intros H. unfold pop. rewrite map_app.
  induction l1 as [|x l1 IH]; [reflexivity|].
  cbn [map app List.last].
  destruct (map Some l1 ++ map Some l2) eqn:E; [|exact IH].
  destruct l1; destruct l2; cbn in E; congruence.
Qed.

(** A digit or a character of a name that is not a separator extends
    a single segment. *)
Lemma split_path_single c x :
  is_separator c = false -> split_path x = [x] ->
  split_path (String c x) = [String c x].
Proof. intros Hc Hx. cbn [split_path]. rewrite Hc, Hx. reflexivity. Qed.

Lemma digit_not_separator c : is_digit c = true -> is_separator c = false.
Proof.
  intros H. destruct c as [[] [] [] [] [] [] [] []]; try discriminate H; reflexivity.
Qed.

Lemma split_path_stamped stamp name :
  skip_digits stamp = "" -> split_path name = [name] ->
  split_path (stamp +:+ String "-" name) = [stamp +:+ String "-" name]
  /\ skip_digits (stamp +:+ String "-" name) = String "-" name.
Proof.
  intros Hs Hn. induction stamp as [|c stamp IH].
  - rewrite append_nil. split; [apply split_path_single; auto|reflexivity].
  - cbn [skip_digits] in Hs. destruct (is_digit c) eqn:Hc; [|discriminate].
    destruct (IH Hs) as [IH1 IH2]. rewrite append_cons. split.
    + apply split_path_single; [apply digit_not_separator; exact Hc|exact IH1].
    + cbn [skip_digits]. rewrite Hc. exact IH2.
Qed.

(** X26: [formatFileName] gives back the name a file was uploaded
    under: for a stored path made of any directory, a separator, a
    non-empty run of digits, a dash and a name without separators, the
    result is that name.  A missing or empty path reads
    [File Deleted]. *)
Theorem formatFileName_recovers_uploaded_name (dir stamp name : string) :
  stamp <> "" ->
  skip_digits stamp = "" ->
  split_path name = [name] ->
  formatFileName (Some (dir +:+ String "/" (stamp +:+ String "-" name))) = name
  /\ formatFileName (Some (dir +:+ String backslash (stamp +:+ String "-" name)))
     = name
  /\ formatFileName (Some (stamp +:+ String "-" name)) = name
  /\ formatFileName None = "File Deleted"
  /\ formatFileName (Some "") = "File Deleted".
Proof.
  intros Hne Hs Hn.
  destruct (split_path_stamped stamp name Hs Hn) as [Hsplit Hskip].
  assert (Hstrip : strip_numeric_prefix (stamp +:+ String "-" name) = name).
  { unfold strip_numeric_prefix. rewrite Hskip.
    destruct stamp as [|c stamp]; [congruence|].
    rewrite append_cons. cbn [skip_digits] in Hs.
    destruct (is_digit c); [reflexivity|discriminate]. }
  assert (Htruthy : Js.truthy (stamp +:+ String "-" name) = true)
    by (destruct stamp; [congruence|reflexivity]).
  assert (Hat : forall sep, is_separator sep = true ->
    formatFileName (Some (dir +:+ String sep (stamp +:+ String "-" name))) = name).
  { intros sep Hsep. unfold formatFileName.
    replace (Js.truthy (dir +:+ String sep (stamp +:+ String "-" name))) with true
      by (destruct dir; reflexivity).
    rewrite (split_path_at_separator dir sep _ Hsep), pop_app
      by apply split_path_nonempty.
    rewrite Hsplit. cbn [pop map List.last]. unfold Js.or_str.
    rewrite Htruthy. exact Hstrip. }
  split; [apply Hat; reflexivity|]. split; [apply Hat; reflexivity|].
  split; [|split; reflexivity].
  unfold formatFileName. rewrite Htruthy, Hsplit. cbn [pop map List.last].
  unfold Js.or_str. rewrite Htruthy. exact Hstrip.
Qed.

Lemma formatFileName_recovers_uploaded_name_witness :
  formatFileName (Some "uploads/shop1/1700000000000-report.pdf") = "report.pdf".
Proof.
  apply (formatFileName_recovers_uploaded_name "uploads/shop1" "1700000000000"
           "report.pdf"); [discriminate|reflexivity|reflexivity].
Defined.

End FileNameFacts.

Section MoreHandlers.
Import UploadPage UploadView.

Lemma form_files_form_data s : form_files (FormData (form_data s)) = files s.
Proof.
  unfold form_files, form_data. rewrite omap_app. cbn.
  rewrite app_nil_r. induction (files s) as [|f fs IH]; [reflexivity|].
  cbn. f_equal. exact IH.
Qed.

(** X27: dropping files replaces the selection, it does not add to
    it: after a drop of at least one file the selection is exactly the
    dropped files, and the upload request of a submission carries
    exactly those files, in order, whatever was selected before.  A drop
    that delivers no file leaves the page as it was. *)
Theorem drop_replaces_selection
    (cfg : Config) (shopId : option string)
    (net : Request -> FetchResult UploadReply)
    (acceptedFiles : list File) (s : State) :
  let dropped := final_state (onDrop acceptedFiles s) in
  (acceptedFiles = [] -> onDrop acceptedFiles s = (Normal tt, s, []))
  /\ (acceptedFiles <> [] ->
        dropped = with_files acceptedFiles s
        /\ exists req,
             requests (trace (handleSubmit cfg shopId net dropped)) = [req]
             /\ form_files (req_body req) = acceptedFiles).
Proof.
  intros dropped. subst dropped. split.
  - intros ->. reflexivity.
  - intros Hne. unfold onDrop, setFiles. handler_unfold.
    destruct acceptedFiles as [|f fs]; [congruence|]. cbn -[handleSubmit].
    split; [reflexivity|].
    exists (upload_request cfg shopId (with_files (f :: fs) s)).
    split; [|apply (form_files_form_data (with_files (f :: fs) s))].
    assert (Hf : files (with_files (f :: fs) s) <> []) by discriminate.
    destruct (net (upload_request cfg shopId (with_files (f :: fs) s)))
      as [e|r] eqn:Hnet.
    + destruct (handleSubmit_failure cfg shopId net _ Hf) as [msg ->];
        [rewrite Hnet; exact I|reflexivity].
    + destruct (ok r) eqn:Hok; [destruct (json r) as [data|e] eqn:Hj|].
      * rewrite (handleSubmit_success cfg shopId net _ r data Hf Hnet Hok Hj).
        reflexivity.
      * destruct (handleSubmit_failure cfg shopId net _ Hf) as [msg ->];
          [rewrite Hnet; right; eauto|reflexivity].
      * destruct (handleSubmit_failure cfg shopId net _ Hf) as [msg ->];
          [rewrite Hnet; left; exact Hok|reflexivity].
Qed.

Lemma drop_replaces_selection_witness :
  files (final_state (onDrop [MoreSamples.slides; MoreSamples.notes] Samples.selected))
  = [MoreSamples.slides; MoreSamples.notes]
  /\ onDrop [] Samples.selected = (Normal tt, Samples.selected, []).
Proof.
  pose proof (drop_replaces_selection Samples.cfg (Some "shop1")
                Samples.upload_accepted [MoreSamples.slides; MoreSamples.notes]
                Samples.selected) as [_ H].
  pose proof (drop_replaces_selection Samples.cfg (Some "shop1")
                Samples.upload_accepted [] Samples.selected) as [H0 _].
  split; [|apply H0; reflexivity].
  destruct H as [H _]; [discriminate|]. rewrite H. reflexivity.
Defined.

End MoreHandlers.

Section MarkCompleted.
Import ShopDashboard.

(** X28: marking a job completed sends one [PUT] to
    [{jobsBase}/{jobId}] with the JSON body [status: completed], the
    JSON content type and the bearer token; the success toast is shown
    exactly when the request resolved with a 2xx response, and
    otherwise the error is logged and the failure toast is shown. *)
Theorem mark_completed_request_and_toast
    (cfg : Config) (authToken : option string)
    (net : Request -> FetchResult unit) (jobId : string) (s : State) :
  let req := mark_completed_request cfg authToken jobId in
  let run := handleMarkAsCompleted cfg authToken net jobId s in
  req_method req = "PUT"
  /\ req_url req = PRINT_JOBS cfg +:+ "/" +:+ jobId
  /\ req_body req = JsonObject [("status", JString "completed")]
  /\ req_headers req
     = [("Content-Type", "application/json");
        ("Authorization", "Bearer " +:+ Js.template authToken)]
  /\ trace run
     = if succeeded (net req)
       then [EFetch req; EToastSuccess "Job marked as completed"]
       else [EFetch req; EConsoleError "Error marking job as completed:";
             EToastError "Failed to mark job as completed"].
Proof.
  intros req run. subst req run. unfold handleMarkAsCompleted. handler_unfold.
  cbn -[mark_completed_request].
  destruct (net (mark_completed_request cfg authToken jobId)) as [e|r];
    cbn -[mark_completed_request]; [|destruct (ok r); cbn -[mark_completed_request]].
  all: repeat split.
Qed.

End MarkCompleted.
